(** * CarButler: the maintenance engine of [main.py], embedded and verified

    The development follows the layout of the source file:
    - the [Vehicle] record and its history entries,
    - [MaintenanceSchedule.check_maintenance_due], the evaluator,
    - the interactive operations of the [CarButler] class
      ([select_vehicle], [update_mileage], [check_maintenance],
      [schedule_service], [add_vehicle], [view_history], [main_menu]) as
      programs over an explicit world: the vehicle list, the lines still to
      be typed, what was printed, the file and what becomes of each attempt
      to write it, the readings of the clock and the answers of the
      collaborators,
    - [Vehicle.to_dict], [Vehicle.from_dict] and [load_vehicles] over the
      dictionaries that the JSON file holds.

    Python integers are unbounded, hence [Z]; the battery voltage is a Python
    float, hence a binary64 [float]. *)

From Stdlib Require Import ZArith Lia Floats.
From stdpp Require Import base option list strings gmap sorting.

Set Warnings "-inexact-float".

Local Open Scope string_scope.
Local Open Scope list_scope.
Local Open Scope Z_scope.

(** ** Data model *)

(** [datetime]: the proleptic Gregorian ordinal of the day and the time of
    day; [d + timedelta(days=i)] moves the ordinal only. *)
Record datetime := mk_datetime {
  toordinal : Z;
  time_of_day : Z
}.

(** One dictionary appended to [maintenance_history]; the four keys are
    ['service'], ['scheduled_date'], ['mileage'], ['status'] (the date is
    kept as the value [isoformat] renders). *)
Record HistoryEntry := mk_entry {
  h_service : string;
  h_scheduled_date : datetime;
  h_mileage : Z;
  h_status : string
}.

Record Vehicle := mk_vehicle {
  make : string;
  model : string;
  year : Z;
  mileage : Z;
  vin : string;
  battery_voltage : float;
  maintenance_history : list HistoryEntry;
  last_oil_change : Z;
  last_tire_rotation : Z;
  last_air_filter : Z
}.

Definition set_mileage (m : Z) (v : Vehicle) : Vehicle :=
  mk_vehicle (make v) (model v) (year v) m (vin v) (battery_voltage v)
             (maintenance_history v) (last_oil_change v)
             (last_tire_rotation v) (last_air_filter v).

Definition set_battery_voltage (b : float) (v : Vehicle) : Vehicle :=
  mk_vehicle (make v) (model v) (year v) (mileage v) (vin v) b
             (maintenance_history v) (last_oil_change v)
             (last_tire_rotation v) (last_air_filter v).

(** [vehicle.maintenance_history.append(e)] *)
Definition history_append (e : HistoryEntry) (v : Vehicle) : Vehicle :=
  mk_vehicle (make v) (model v) (year v) (mileage v) (vin v)
             (battery_voltage v) (maintenance_history v ++ [e])
             (last_oil_change v) (last_tire_rotation v) (last_air_filter v).

(** [Vehicle.__init__]: the three [random.randint] draws are arguments
    ([backlog_oil] from 1000..4000, [backlog_tire] from 2000..6000,
    [backlog_air] from 10000..20000), and so is the VIN. *)
Definition Vehicle_init (make model : string) (year mileage : Z) (vin : string)
           (backlog_oil backlog_tire backlog_air : Z) : Vehicle :=
  mk_vehicle make model year mileage vin 12.6%float []
             (mileage - backlog_oil) (mileage - backlog_tire)
             (mileage - backlog_air).

(** The invariant of the data model: no last-service reading is ahead of the
    odometer. *)
Definition readings_behind (v : Vehicle) : Prop :=
  last_oil_change v <= mileage v /\
  last_tire_rotation v <= mileage v /\
  last_air_filter v <= mileage v.

(** ** Code that receives a vehicle by reference

    A method body that is handed a [Vehicle] object runs against that object:
    it returns a value and leaves the object in some state. *)
Definition OnVehicle (A : Type) : Type := Vehicle -> A * Vehicle.

Definition vret {A} (a : A) : OnVehicle A := fun o => (a, o).

Definition vbind {A B} (m : OnVehicle A) (k : A -> OnVehicle B) : OnVehicle B :=
  fun o => let '(a, o') := m o in k a o'.

(** [vehicle.f] *)
Definition getattr {A} (f : Vehicle -> A) : OnVehicle A := fun o => (f o, o).

(** [vehicle.f = x], through one of the setters above *)
Definition setattr (upd : Vehicle -> Vehicle) : OnVehicle unit :=
  fun o => (tt, upd o).

Notation "'read' x <- m ; k" := (vbind m (fun x => k))
  (at level 10, x name, m at level 100, k at level 200, only parsing).

(** ** MaintenanceSchedule *)

(** (service_name, miles_until_due, status) *)
Definition Item : Type := string * Z * string.

Definition item_name (it : Item) : string := it.1.1.
Definition item_miles (it : Item) : Z := it.1.2.
Definition item_status (it : Item) : string := it.2.

Module MaintenanceSchedule.

(** Standard maintenance intervals (in miles) *)
Definition INTERVALS : gmap string (Z * Z) :=
  list_to_map
    [ ("oil_change", (5000, 7500));
      ("tire_rotation", (5000, 8000));
      ("air_filter", (15000, 30000));
      ("brake_inspection", (20000, 20000));
      ("coolant_flush", (30000, 30000));
      ("transmission_service", (30000, 60000)) ].

(** [INTERVALS[k][1]] *)
Definition interval_max (k : string) : Z := (INTERVALS !!! k).2.

Definition check_maintenance_due : OnVehicle (list Item) :=
  let due_items : list Item := [] in
  (* Check oil change *)
  let oil_interval := interval_max "oil_change" in
  read m <- getattr mileage;
  read last_oil <- getattr last_oil_change;
  let miles_since_oil := m - last_oil in
  let miles_until_oil := oil_interval - miles_since_oil in
  let due_items :=
    if miles_until_oil <=? 0 then due_items ++ [("Oil Change", 0, "OVERDUE")]
    else if miles_until_oil <=? 500
         then due_items ++ [("Oil Change", miles_until_oil, "DUE SOON")]
    else if miles_until_oil <=? 1000
         then due_items ++ [("Oil Change", miles_until_oil, "UPCOMING")]
    else due_items in
  (* Check tire rotation *)
  let tire_interval := interval_max "tire_rotation" in
  read m <- getattr mileage;
  read last_tire <- getattr last_tire_rotation;
  let miles_since_tire := m - last_tire in
  let miles_until_tire := tire_interval - miles_since_tire in
  let due_items :=
    if miles_until_tire <=? 0 then due_items ++ [("Tire Rotation", 0, "OVERDUE")]
    else if miles_until_tire <=? 500
         then due_items ++ [("Tire Rotation", miles_until_tire, "DUE SOON")]
    else if miles_until_tire <=? 1000
         then due_items ++ [("Tire Rotation", miles_until_tire, "UPCOMING")]
    else due_items in
  (* Check air filter *)
  let air_interval := interval_max "air_filter" in
  read m <- getattr mileage;
  read last_air <- getattr last_air_filter;
  let miles_since_air := m - last_air in
  let miles_until_air := air_interval - miles_since_air in
  let due_items :=
    if miles_until_air <=? 0 then due_items ++ [("Air Filter", 0, "OVERDUE")]
    else if miles_until_air <=? 2000
         then due_items ++ [("Air Filter", miles_until_air, "UPCOMING")]
    else due_items in
  vret due_items.

End MaintenanceSchedule.

Import MaintenanceSchedule.

(** What a caller gets back, and the items of one service in it. *)
Definition due_items (v : Vehicle) : list Item := (check_maintenance_due v).1.

Definition items_named (name : string) (l : list Item) : list Item :=
  filter (fun it => item_name it = name) l.

(** A record for experiments: only the odometer and the three readings vary. *)
Definition sample (m oil tire air : Z) : Vehicle :=
  Vehicle_init "Toyota" "Camry" 2020 m "MOCK12345" (m - oil) (m - tire) (m - air).

(** The miles left before a service is due, as the evaluator computes them. *)
Definition oil_remaining (v : Vehicle) : Z :=
  7500 - (mileage v - last_oil_change v).
Definition tire_remaining (v : Vehicle) : Z :=
  8000 - (mileage v - last_tire_rotation v).
Definition air_remaining (v : Vehicle) : Z :=
  30000 - (mileage v - last_air_filter v).

(** ** The interactive application

    What the [CarButler] object and its surroundings hold while a menu
    operation runs. *)

(** Lines the operations print that carry a decision or a value; headings,
    prompts, rulers and the numbered listings of vehicles, services and dates
    are left out. *)
Inductive Output :=
| Say (text : string)
| CurrentMileage (m : Z)
| OBD2Data (m : Z) (battery : float)
| MileageUpdated (m : Z)
| BatteryLow (battery : float)
| DueLine (it : Item)
| BatteryStatus (battery : float)
| CalendarEventCreated (event_id : string)
| SaveFailed.                   (* "Error saving vehicles: ..." *)

(** What becomes of an attempt to write the file: the list is written;
    [open] raises and the file is not touched; or [open] has emptied the
    file and [json.dump] raises before the list is complete. *)
Inductive write_result := Written | OpenFailed | DumpFailed.

Record World := mk_world {
  vehicles : list Vehicle;      (* self.vehicles *)
  stdin : list string;          (* the lines the user is still to type *)
  stdout : list Output;         (* printed so far, oldest first *)
  saved : list Vehicle;         (* the list last written to data/vehicles.json
                                   in full *)
  file_torn : bool;             (* a later write broke off half-way: the file
                                   holds the beginning of a list *)
  clock : nat -> datetime;      (* what the k-th call of datetime.now() returns *)
  clock_reads : nat;            (* the calls of datetime.now() made so far *)
  obd2_mileage : Z;             (* self.obd2.get_mileage() *)
  obd2_battery : float;         (* self.obd2.get_battery_voltage() *)
  calendar_id : string;         (* self.calendar.create_event(...) *)
  email_ok : bool;              (* self.email.send_email(...) *)
  write_ok : nat -> write_result; (* what becomes of the k-th attempt to write
                                   the file *)
  writes : nat                  (* the attempts to write the file made so far *)
}.

(** What the next call of [datetime.now()] returns. *)
Definition now (w : World) : datetime := clock w (clock_reads w).

Definition set_vehicles (vs : list Vehicle) (w : World) : World :=
  mk_world vs (stdin w) (stdout w) (saved w) (file_torn w) (clock w)
           (clock_reads w) (obd2_mileage w) (obd2_battery w) (calendar_id w)
           (email_ok w) (write_ok w) (writes w).

Definition set_stdin (ls : list string) (w : World) : World :=
  mk_world (vehicles w) ls (stdout w) (saved w) (file_torn w) (clock w)
           (clock_reads w) (obd2_mileage w) (obd2_battery w) (calendar_id w)
           (email_ok w) (write_ok w) (writes w).

Definition set_stdout (out : list Output) (w : World) : World :=
  mk_world (vehicles w) (stdin w) out (saved w) (file_torn w) (clock w)
           (clock_reads w) (obd2_mileage w) (obd2_battery w) (calendar_id w)
           (email_ok w) (write_ok w) (writes w).

Definition set_saved (vs : list Vehicle) (w : World) : World :=
  mk_world (vehicles w) (stdin w) (stdout w) vs (file_torn w) (clock w)
           (clock_reads w) (obd2_mileage w) (obd2_battery w) (calendar_id w)
           (email_ok w) (write_ok w) (writes w).

Definition set_file_torn (torn : bool) (w : World) : World :=
  mk_world (vehicles w) (stdin w) (stdout w) (saved w) torn (clock w)
           (clock_reads w) (obd2_mileage w) (obd2_battery w) (calendar_id w)
           (email_ok w) (write_ok w) (writes w).

Definition set_clock_reads (n : nat) (w : World) : World :=
  mk_world (vehicles w) (stdin w) (stdout w) (saved w) (file_torn w) (clock w)
           n (obd2_mileage w) (obd2_battery w) (calendar_id w)
           (email_ok w) (write_ok w) (writes w).

Definition set_email_ok (ok : bool) (w : World) : World :=
  mk_world (vehicles w) (stdin w) (stdout w) (saved w) (file_torn w) (clock w)
           (clock_reads w) (obd2_mileage w) (obd2_battery w) (calendar_id w)
           ok (write_ok w) (writes w).

Definition set_writes (n : nat) (w : World) : World :=
  mk_world (vehicles w) (stdin w) (stdout w) (saved w) (file_torn w) (clock w)
           (clock_reads w) (obd2_mileage w) (obd2_battery w) (calendar_id w)
           (email_ok w) (write_ok w) n.

(** An operation ends normally or with an exception; either way the world is
    left in some state. *)
Inductive exn := EOFError | IndexError.

Inductive outcome (A : Type) :=
| Done (a : A)
| Raised (e : exn).
Arguments Done {A} a.
Arguments Raised {A} e.

Definition App (A : Type) : Type := World -> outcome A * World.

Definition ret {A} (a : A) : App A := fun w => (Done a, w).

Definition raise {A} (e : exn) : App A := fun w => (Raised e, w).

Definition bind {A B} (m : App A) (k : A -> App B) : App B :=
  fun w => match m w with
           | (Done a, w') => k a w'
           | (Raised e, w') => (Raised e, w')
           end.

Notation "'do' x <- m ; k" := (bind m (fun x => k))
  (at level 10, x name, m at level 100, k at level 200, only parsing).
Notation "'run' m ; k" := (bind m (fun _ => k))
  (at level 10, m at level 100, k at level 200, only parsing).

(** [input(...)]: the next line, [EOFError] when there is none. *)
Definition input : App string :=
  fun w => match stdin w with
           | [] => (Raised EOFError, w)
           | l :: rest => (Done l, set_stdin rest w)
           end.

Definition print (o : Output) : App unit :=
  fun w => (Done tt, set_stdout (stdout w ++ [o]) w).

(** Run a method body against the vehicle object that sits at position [i]
    of [self.vehicles]; whatever it does to the object is seen through the
    list. *)
Definition on_vehicle {A} (i : nat) (m : OnVehicle A) : App A :=
  fun w => match vehicles w !! i with
           | Some v => let '(a, v') := m v in
                       (Done a, set_vehicles (<[i := v']> (vehicles w)) w)
           | None => (Raised IndexError, w)
           end.

(** [l[k]] for an index that the caller has brought into range. *)
Definition index {A} (l : list A) (k : Z) : App A :=
  match l !! Z.to_nat k with
  | Some x => ret x
  | None => raise IndexError
  end.

(** [save_vehicles]: the whole list goes to the file; when [open] or
    [json.dump] raises, the [except] clause prints the warning and the
    method returns all the same, with the list not in the file. *)
Definition save_vehicles : App unit :=
  fun w =>
    let w' := set_writes (S (writes w)) w in
    match write_ok w (writes w) with
    | Written => (Done tt, set_file_torn false (set_saved (vehicles w) w'))
    | OpenFailed => (Done tt, set_stdout (stdout w ++ [SaveFailed]) w')
    | DumpFailed =>
        (Done tt, set_stdout (stdout w ++ [SaveFailed]) (set_file_torn true w'))
    end.

(** [datetime.now()]: every call is a reading of its own. *)
Definition get_now : App datetime :=
  fun w => (Done (now w), set_clock_reads (S (clock_reads w)) w).
Definition obd2_get_mileage : App Z := fun w => (Done (obd2_mileage w), w).
Definition obd2_get_battery_voltage : App float :=
  fun w => (Done (obd2_battery w), w).
Definition calendar_create_event : App string :=
  fun w => (Done (calendar_id w), w).
Definition email_send_email (to : string) : App bool :=
  fun w => (Done (email_ok w), w).

(** An operation that leaves [self.vehicles] and the objects in it as they
    were. *)
Definition keeps_vehicles {A} (m : App A) : Prop :=
  forall w, vehicles (m w).2 = vehicles w.

(** Python's string functions behind the prompts, kept abstract:
    [int_of s] is [int(s.strip())] with [None] for [ValueError], and
    [strip_lower s] is [s.strip().lower()]. *)
Class Builtins := {
  int_of : string -> option Z;
  strip_lower : string -> string
}.

(** [d.weekday()]: Monday is 0; day 1 of the calendar was a Monday. *)
Definition weekday (d : datetime) : Z := (toordinal d + 6) mod 7.

(** [d + timedelta(days=i)] *)
Definition plus_days (d : datetime) (i : Z) : datetime :=
  mk_datetime (toordinal d + i) (time_of_day d).

(** The battery line of [check_maintenance]: the text printed for a voltage. *)
Definition battery_label (battery_voltage : float) : string :=
  if PrimFloat.leb 12.4 battery_voltage then "(Good)"
  else if PrimFloat.leb 12.0 battery_voltage then "(Fair)"
  else "(Poor - Consider replacement)".

Section CarButler.

Context `{!Builtins}.

Definition is_y (answer : string) : bool :=
  bool_decide (strip_lower answer = "y").

(** The selection loop that [select_vehicle] and [schedule_service] (for
    the service, then for the date) each spell out:
    [while True: try: choice = int(input(...).strip()) ...], left by
    [return]/[break] once [1 <= choice <= n]. [lines] is the input still
    unread ([prompt_choice] passes it): every round takes one line, and
    [input] raises [EOFError] when none is left. *)
Fixpoint ask_choice (n : Z) (lines : list string) : App Z :=
  match lines with
  | [] => raise EOFError
  | _ :: rest =>
      do l <- input;
      match int_of l with
      | Some choice =>
          if (1 <=? choice) && (choice <=? n) then ret choice
          else run print (Say "Invalid selection."); ask_choice n rest
      | None => run print (Say "Please enter a valid number."); ask_choice n rest
      end
  end.

Definition prompt_choice (n : Z) : App Z :=
  fun w => ask_choice n (stdin w) w.

(** Returns the position of the chosen vehicle in [self.vehicles], for the
    reference the method returns. *)
Definition select_vehicle : App (option nat) :=
  fun w =>
    match vehicles w with
    | [] => (run print (Say "No vehicles found. Please add a vehicle first.");
             ret None) w
    | _ => (do choice <- prompt_choice (Z.of_nat (length (vehicles w)));
            ret (Some (Z.to_nat (choice - 1)))) w
    end.

(** The manual branch of [update_mileage]. *)
Fixpoint ask_new_mileage (i : nat) (lines : list string) : App unit :=
  match lines with
  | [] => raise EOFError
  | _ :: rest =>
      do l <- input;
      match int_of l with
      | Some new_mileage =>
          do current <- on_vehicle i (getattr mileage);
          if current <=? new_mileage
          then on_vehicle i (setattr (set_mileage new_mileage))
          else run print (Say "New mileage must be greater than current mileage.");
               ask_new_mileage i rest
      | None => run print (Say "Please enter a valid number.");
                ask_new_mileage i rest
      end
  end.

(** What [update_mileage] does once the new reading is stored: save,
    confirm, check the battery, wait for Enter. *)
Definition report_update (i : nat) : App unit :=
  run save_vehicles;
  do m <- on_vehicle i (getattr mileage);
  run print (MileageUpdated m);
  do battery <- on_vehicle i (getattr battery_voltage);
  run (if PrimFloat.ltb battery 12.0 then print (BatteryLow battery) else ret tt);
  run input;
  ret tt.

Definition update_mileage : App unit :=
  do sel <- select_vehicle;
  match sel with
  | None => ret tt
  | Some i =>
      do current <- on_vehicle i (getattr mileage);
      run print (CurrentMileage current);
      (* Offer OBD2 option *)
      do answer <- input;
      let use_obd2 := is_y answer in
      if use_obd2 then
        do new_mileage <- obd2_get_mileage;
        do battery <- obd2_get_battery_voltage;
        run print (OBD2Data new_mileage battery);
        do confirm <- input;
        if is_y confirm then
          run on_vehicle i (setattr (set_mileage new_mileage));
          run on_vehicle i (setattr (set_battery_voltage battery));
          report_update i
        else ret tt
      else
        run (fun w => ask_new_mileage i (stdin w) w);
        report_update i
  end.

Definition check_maintenance : App unit :=
  do sel <- select_vehicle;
  match sel with
  | None => ret tt
  | Some i =>
      do due <- on_vehicle i check_maintenance_due;
      run (match due with
           | [] => print (Say "All maintenance up to date!")
           | _ => fun w => (Done tt, set_stdout (stdout w ++ (DueLine <$> due)) w)
           end);
      (* Battery status *)
      do battery <- on_vehicle i (getattr battery_voltage);
      run print (BatteryStatus battery);
      run print (Say (battery_label battery));
      run input;
      ret tt
  end.

(** The loop [for i in range(1, 8)] that fills [dates]: every round reads
    the clock anew and keeps the day [i] days on when it is a weekday. *)
Fixpoint collect_dates (days : list Z) (dates : list datetime)
  : App (list datetime) :=
  match days with
  | [] => ret dates
  | i :: rest =>
      do today <- get_now;
      let date := plus_days today i in
      collect_dates rest (if bool_decide (weekday date < 5)
                          then dates ++ [date] else dates)
  end.

Definition candidate_dates : App (list datetime) :=
  collect_dates (seqZ 1 7) [].

(** [schedule_service] up to the point where a service and a date are in
    hand (or the method has returned without them). *)
Definition select_service_and_date : App (option (nat * string * datetime)) :=
  do sel <- select_vehicle;
  match sel with
  | None => ret None
  | Some i =>
      do due <- on_vehicle i check_maintenance_due;
      match due with
      | [] => run print (Say "No maintenance currently due!");
              run input;
              ret None
      | _ =>
          (* Select service *)
          do choice <- prompt_choice (Z.of_nat (length due));
          do picked <- index due (choice - 1);
          let selected_service := item_name picked in
          (* Select date *)
          do dates <- candidate_dates;
          do choice <- prompt_choice (Z.of_nat (length dates));
          do selected_date <- index dates (choice - 1);
          ret (Some (i, selected_service, selected_date))
      end
  end.

(** The rest of [schedule_service]: calendar event, optional email, history
    record, save. *)
Definition record_appointment (i : nat) (selected_service : string)
           (selected_date : datetime) : App unit :=
  (* Create calendar event *)
  do event_id <- calendar_create_event;
  run print (CalendarEventCreated event_id);
  (* Send email *)
  do send_email <- input;
  run (if is_y send_email then
         do provider_email <- input;
         do sent <- email_send_email provider_email;
         if sent then print (Say "Email sent successfully!")
         else print (Say "Failed to send email.")
       else ret tt);
  (* Update maintenance record *)
  do m <- on_vehicle i (getattr mileage);
  run on_vehicle i (setattr (history_append
                               (mk_entry selected_service selected_date m "scheduled")));
  run save_vehicles;
  run input;
  ret tt.

Definition schedule_service : App unit :=
  do selection <- select_service_and_date;
  match selection with
  | None => ret tt
  | Some (i, selected_service, selected_date) =>
      record_appointment i selected_service selected_date
  end.

(** The user answers the email question of [record_appointment], and the
    request for an address if the answer was yes. *)
Definition email_prompt_answered (w : World) : bool :=
  match stdin w with
  | [] => false
  | answer :: rest =>
      if is_y answer then bool_decide (rest <> []) else true
  end.

(** The vehicle at position [i] of [vs] has, in [vs'], exactly one history
    record more, at the end: [service] on [date], with the mileage the
    vehicle had in [vs] and status "scheduled"; the list is as long as it
    was and holds the same vehicles at the other positions. *)
Definition one_entry_appended (i : nat) (service : string) (date : datetime)
           (vs vs' : list Vehicle) : Prop :=
  exists v v' : Vehicle,
    vs !! i = Some v /\ vs' !! i = Some v' /\
    maintenance_history v'
    = maintenance_history v ++ [mk_entry service date (mileage v) "scheduled"] /\
    length vs' = length vs /\
    (forall k : nat, k <> i -> vs' !! k = vs !! k).

(** [n] runs of [schedule_service], each of which got as far as a service
    and a date for the vehicle at position [i]; between two runs anything
    but the vehicle list may change (what is typed, the clock, the
    collaborators' answers). *)
Inductive appointments (i : nat) : nat -> list Vehicle -> list Vehicle -> Prop :=
| appointments_none (vs : list Vehicle) : appointments i 0 vs vs
| appointments_next (n : nat) (w w1 : World) (service : string) (date : datetime)
                    (vs : list Vehicle) :
    select_service_and_date w = (Done (Some (i, service, date)), w1) ->
    email_prompt_answered w1 = true ->
    appointments i n (vehicles (schedule_service w).2) vs ->
    appointments i (S n) (vehicles w) vs.

End CarButler.

(** ** A keyboard for experiments

    A user who types plain decimal digits and a bare lower-case [y] or [n]. *)
Fixpoint decimal (s : string) (acc : Z) : option Z :=
  match s with
  | EmptyString => Some acc
  | String c rest =>
      let d := Z.of_N (Ascii.N_of_ascii c) - 48 in
      if (0 <=? d) && (d <=? 9) then decimal rest (10 * acc + d) else None
  end.

Definition plain_int (s : string) : option Z :=
  match s with
  | EmptyString => None
  | _ => decimal s 0
  end.

#[local] Instance plain_keyboard : Builtins :=
  {| int_of := plain_int; strip_lower := fun s => s |}.

(** A clock that starts on day 739000, a Wednesday, and is one unit of time
    further at every reading. *)
Definition wednesday_clock (k : nat) : datetime :=
  mk_datetime 739000 (Z.of_nat k).

(** One car in the garage, an OBD2 reader that shows 1000 miles at 11.8 V,
    a file that can be written. *)
Definition garage (typed : list string) : World :=
  mk_world [sample 50000 47000 46000 20500] typed [] [] false
           wednesday_clock 0 1000 11.8%float "mock_event_1234" true
           (fun _ => Written) 0.

(** A car as [Vehicle.__init__] makes it at 50000 miles (backlogs 3000, 4000
    and 15000), with the same reader attached. *)
Definition new_car_garage (typed : list string) : World :=
  mk_world [sample 50000 47000 46000 35000] typed [] [] false
           wednesday_clock 0 1000 11.8%float "mock_event_1234" true
           (fun _ => Written) 0.

(** ** Shapes used to state what the evaluator returns *)

(** The three-tier test of the oil change and the tire rotation, and the
    two-tier test of the air filter, on the miles left. *)
Definition three_tiers (name : string) (miles_until : Z) : list Item :=
  if miles_until <=? 0 then [(name, 0, "OVERDUE")]
  else if miles_until <=? 500 then [(name, miles_until, "DUE SOON")]
  else if miles_until <=? 1000 then [(name, miles_until, "UPCOMING")]
  else [].

Definition two_tiers (name : string) (miles_until : Z) : list Item :=
  if miles_until <=? 0 then [(name, 0, "OVERDUE")]
  else if miles_until <=? 2000 then [(name, miles_until, "UPCOMING")]
  else [].

(** How pressing a status is. *)
Definition urgency (status : string) : Z :=
  if decide (status = "OVERDUE") then 3
  else if decide (status = "DUE SOON") then 2
  else if decide (status = "UPCOMING") then 1
  else 0.

(** ** Worlds for experiments with the clock and the file *)

(** A clock that passes midnight of [day] after [before] readings. *)
Definition midnight_clock (day : Z) (before : nat) (k : nat) : datetime :=
  if (k <? before)%nat then mk_datetime day 86399 else mk_datetime (day + 1) 0.

Definition with_clock (c : nat -> datetime) (w : World) : World :=
  mk_world (vehicles w) (stdin w) (stdout w) (saved w) (file_torn w) c 0
           (obd2_mileage w) (obd2_battery w) (calendar_id w) (email_ok w)
           (write_ok w) (writes w).

(** A file that every attempt to write ends on in the given way. *)
Definition with_writes (result : write_result) (w : World) : World :=
  mk_world (vehicles w) (stdin w) (stdout w) (saved w) (file_torn w) (clock w)
           (clock_reads w) (obd2_mileage w) (obd2_battery w) (calendar_id w)
           (email_ok w) (fun _ => result) (writes w).

(** ** The dates on offer *)

(** The next [n] readings of the clock, in the order they will be taken. *)
Definition readings (w : World) (n : nat) : list datetime :=
  clock w <$> seq (clock_reads w) n.

(** What the date loop keeps when its rounds read [times] and add [days]:
    the [k]-th day is added to the [k]-th reading, weekdays stay. *)
Definition offered (times : list datetime) (days : list Z) : list datetime :=
  filter (fun date => weekday date < 5) (zip_with plus_days times days).

(** ** What an operation leaves alone *)

(** [m] never changes what [f] reads off the world. *)
Definition preserves {A B} (f : World -> B) (m : App A) : Prop :=
  forall w, f (m w).2 = f w.

(** What only [save_vehicles] or the outside can change: the file and the
    attempts to write it, the course of the clock and the collaborators. *)
Definition standing (w : World)
  : list Vehicle * bool * (nat -> write_result) * nat * (nat -> datetime)
    * Z * float * string * bool :=
  (saved w, file_torn w, write_ok w, writes w, clock w,
   obd2_mileage w, obd2_battery w, calendar_id w, email_ok w).

(** Everything around the application: the above, and how often the clock
    has been read. *)
Definition surroundings (w : World)
  : list Vehicle * bool * (nat -> write_result) * nat * (nat -> datetime)
    * Z * float * string * bool * nat :=
  (standing w, clock_reads w).

(** Everything but the unread input and the printed lines. *)
Definition beyond_io (w : World)
  : list Vehicle * (list Vehicle * bool * (nat -> write_result) * nat
                    * (nat -> datetime) * Z * float * string * bool * nat) :=
  (vehicles w, surroundings w).

Section Prompts.

Context `{!Builtins}.

(** A line the selection loop accepts for [n] entries. *)
Definition valid_choice (n : Z) (l : string) : bool :=
  match int_of l with
  | Some choice => (1 <=? choice) && (choice <=? n)
  | None => false
  end.

(** What the selection loop prints for a line it turns down. *)
Definition complaint (l : string) : Output :=
  match int_of l with
  | Some _ => Say "Invalid selection."
  | None => Say "Please enter a valid number."
  end.

End Prompts.

(** From [w] to [w'] nothing was stored in the vehicle list and no write of
    the file was attempted. *)
Definition untouched (w w' : World) : Prop :=
  vehicles w' = vehicles w /\ saved w' = saved w /\
  file_torn w' = file_torn w /\ writes w' = writes w.

(** From [w] to [w'] the file was written once, after the last change of the
    vehicle list. When the attempt goes through, the file holds the list of
    [w'], in full. When [open] fails, the file is as it was and the warning
    has been printed. When [json.dump] fails, the file is left torn and the
    warning has been printed. *)
Definition written (w w' : World) : Prop :=
  writes w' = S (writes w) /\
  match write_ok w (writes w) with
  | Written => saved w' = vehicles w' /\ file_torn w' = false
  | OpenFailed =>
      saved w' = saved w /\ file_torn w' = file_torn w /\ SaveFailed ∈ stdout w'
  | DumpFailed => file_torn w' = true /\ SaveFailed ∈ stdout w'
  end.

(** The three ways a run of [update_mileage] can leave the vehicles and the
    file: nothing stored; a reading not below the odometer stored in one
    vehicle and the file written; the reader's mileage and voltage stored in
    one vehicle and the file written. *)
Definition update_outcome (w w' : World) : Prop :=
  untouched w w' \/
  (exists i v m,
     vehicles w !! i = Some v /\ mileage v <= m /\
     vehicles w' = <[i := set_mileage m v]> (vehicles w) /\
     written w w') \/
  (exists i v,
     vehicles w !! i = Some v /\
     vehicles w'
     = <[i := set_battery_voltage (obd2_battery w)
                                  (set_mileage (obd2_mileage w) v)]> (vehicles w) /\
     written w w').

(** The two ways a run of [schedule_service] can leave the vehicles and the
    file: nothing stored; one record appended to one vehicle and the file
    written. *)
Definition schedule_outcome (w w' : World) : Prop :=
  untouched w w' \/
  (exists i v service date,
     vehicles w !! i = Some v /\
     vehicles w'
     = <[i := history_append (mk_entry service date (mileage v) "scheduled") v]>
         (vehicles w) /\
     written w w').

(** ** Persistence: [to_dict], [from_dict], [load_vehicles]

    The values a vehicle dictionary holds once [json.load] has read it: JSON
    null, strings, integers, floats, and the list of history records. *)
Inductive pyval :=
| PNone
| PStr (s : string)
| PInt (n : Z)
| PFloat (x : float)
| PHistory (records : list HistoryEntry).

(** Python's truth value, as [vin or ...] tests it. *)
Definition truthy (x : pyval) : bool :=
  match x with
  | PNone => false
  | PStr s => negb (bool_decide (s = ""))
  | PInt n => negb (n =? 0)
  | PFloat x => negb (PrimFloat.eqb x 0)
  | PHistory records => negb (bool_decide (records = []))
  end.

Definition to_dict (v : Vehicle) : gmap string pyval :=
  list_to_map
    [ ("make", PStr (make v));
      ("model", PStr (model v));
      ("year", PInt (year v));
      ("mileage", PInt (mileage v));
      ("vin", PStr (vin v));
      ("battery_voltage", PFloat (battery_voltage v));
      ("maintenance_history", PHistory (maintenance_history v));
      ("last_oil_change", PInt (last_oil_change v));
      ("last_tire_rotation", PInt (last_tire_rotation v));
      ("last_air_filter", PInt (last_air_filter v)) ].

Definition set_maintenance_history (h : list HistoryEntry) (v : Vehicle) : Vehicle :=
  mk_vehicle (make v) (model v) (year v) (mileage v) (vin v) (battery_voltage v) h
             (last_oil_change v) (last_tire_rotation v) (last_air_filter v).

Definition set_last_oil_change (m : Z) (v : Vehicle) : Vehicle :=
  mk_vehicle (make v) (model v) (year v) (mileage v) (vin v) (battery_voltage v)
             (maintenance_history v) m (last_tire_rotation v) (last_air_filter v).

Definition set_last_tire_rotation (m : Z) (v : Vehicle) : Vehicle :=
  mk_vehicle (make v) (model v) (year v) (mileage v) (vin v) (battery_voltage v)
             (maintenance_history v) (last_oil_change v) m (last_air_filter v).

Definition set_last_air_filter (m : Z) (v : Vehicle) : Vehicle :=
  mk_vehicle (make v) (model v) (year v) (mileage v) (vin v) (battery_voltage v)
             (maintenance_history v) (last_oil_change v) (last_tire_rotation v) m.

(** What one call of the constructor draws: the mock VIN (the rendered
    [f"MOCK{random.randint(10000, 99999)}"]) and the three backlogs. *)
Record Draws := mk_draws {
  draw_vin : string;
  draw_oil : Z;
  draw_tire : Z;
  draw_air : Z
}.

(** [from_dict] ends with a vehicle or with [KeyError]; [OutOfModel] stands
    for a dictionary with a value of a Python type that the fields of
    [Vehicle] here cannot hold (a mileage that is not an integer, say), about
    which nothing is claimed. *)
Inductive constructed :=
| Built (v : Vehicle)
| KeyError (key : string)
| OutOfModel.

(** [data.get(key, default)], for a field of the given type. *)
Definition get_int (data : gmap string pyval) (key : string) (default : Z)
  : option Z :=
  match data !! key with
  | None => Some default
  | Some (PInt n) => Some n
  | Some _ => None
  end.

Definition from_dict (r : Draws) (data : gmap string pyval) : constructed :=
  match data !! "make", data !! "model", data !! "year", data !! "mileage" with
  | None, _, _, _ => KeyError "make"
  | Some _, None, _, _ => KeyError "model"
  | Some _, Some _, None, _ => KeyError "year"
  | Some _, Some _, Some _, None => KeyError "mileage"
  | Some (PStr make_), Some (PStr model_), Some (PInt year_), Some (PInt mileage_) =>
      (* cls(..., data.get('vin')): self.vin = vin or f"MOCK..." *)
      let vin_ :=
        match data !! "vin" with
        | None => Some (draw_vin r)
        | Some x => if truthy x
                    then match x with PStr s => Some s | _ => None end
                    else Some (draw_vin r)
        end in
      let battery_ :=
        match data !! "battery_voltage" with
        | None => Some 12.6%float
        | Some (PFloat x) => Some x
        | Some _ => None
        end in
      let history_ :=
        match data !! "maintenance_history" with
        | None => Some []
        | Some (PHistory records) => Some records
        | Some _ => None
        end in
      match vin_, battery_, history_ with
      | Some vin_, Some battery_, Some history_ =>
          let vehicle :=
            Vehicle_init make_ model_ year_ mileage_ vin_
                         (draw_oil r) (draw_tire r) (draw_air r) in
          let vehicle := set_battery_voltage battery_ vehicle in
          let vehicle := set_maintenance_history history_ vehicle in
          match get_int data "last_oil_change" (mileage vehicle - 3000),
                get_int data "last_tire_rotation" (mileage vehicle - 4000),
                get_int data "last_air_filter" (mileage vehicle - 15000) with
          | Some oil, Some tire, Some air =>
              Built (set_last_air_filter air
                       (set_last_tire_rotation tire
                          (set_last_oil_change oil vehicle)))
          | _, _, _ => OutOfModel
          end
      | _, _, _ => OutOfModel
      end
  | _, _, _, _ => OutOfModel
  end.

(** [data/vehicles.json]: absent, not readable as a list of dictionaries
    ([json.load] or the loop over it raises), or a list of dictionaries. *)
Inductive file :=
| Missing
| Unreadable
| Json (data : list (gmap string pyval)).

(** [[Vehicle.from_dict(v) for v in data]]: the first exception ends the
    comprehension; [rng k] are the draws of the [k]-th constructor call. *)
Fixpoint from_dicts (rng : nat -> Draws) (k : nat) (data : list (gmap string pyval))
  : option (option (list Vehicle)) :=
  match data with
  | [] => Some (Some [])
  | d :: rest =>
      match from_dict (rng k) d with
      | Built v =>
          match from_dicts rng (S k) rest with
          | Some (Some vs) => Some (Some (v :: vs))
          | other => other
          end
      | KeyError _ => Some None
      | OutOfModel => None
      end
  end.

(** [load_vehicles]: the list that ends up in [self.vehicles] and whether the
    warning was printed; [None] when a dictionary is out of the model. *)
Definition load_vehicles (rng : nat -> Draws) (f : file)
  : option (list Vehicle * bool) :=
  match f with
  | Missing => Some ([], false)
  | Unreadable => Some ([], true)
  | Json data =>
      match from_dicts rng 0 data with
      | Some (Some vs) => Some (vs, false)
      | Some None => Some ([], true)
      | None => None
      end
  end.

(** What [save_vehicles] writes for a list of vehicles. *)
Definition dump (vs : list Vehicle) : file := Json (to_dict <$> vs).

(** ** The remaining menu operations *)

Section Menu.

Context `{!Builtins}.

(** [s.strip()] and [d.year], kept abstract like the other builtins. *)
Variable strip : string -> string.
Variable year_of : datetime -> Z.

(** The year prompt of [add_vehicle]. *)
Fixpoint ask_year (lines : list string) : App Z :=
  match lines with
  | [] => raise EOFError
  | _ :: rest =>
      do l <- input;
      match int_of l with
      | Some year =>
          do today <- get_now;
          if (1900 <=? year) && (year <=? year_of today + 1) then ret year
          else run print (Say "Please enter a valid year."); ask_year rest
      | None => run print (Say "Please enter a valid year."); ask_year rest
      end
  end.

(** The mileage prompt of [add_vehicle]. *)
Fixpoint ask_mileage (lines : list string) : App Z :=
  match lines with
  | [] => raise EOFError
  | _ :: rest =>
      do l <- input;
      match int_of l with
      | Some mileage =>
          if 0 <=? mileage then ret mileage
          else run print (Say "Mileage must be positive."); ask_mileage rest
      | None => run print (Say "Please enter a valid number."); ask_mileage rest
      end
  end.

(** [self.vehicles.append(vehicle)] *)
Definition vehicles_append (v : Vehicle) : App unit :=
  fun w => (Done tt, set_vehicles (vehicles w ++ [v]) w).

(** [add_vehicle]; [r] is what the constructor draws. The closing line
    "Successfully added ..." is not logged. *)
Definition add_vehicle (r : Draws) : App unit :=
  do make_line <- input;
  let make := strip make_line in
  do model_line <- input;
  let model := strip model_line in
  do year <- (fun w => ask_year (stdin w) w);
  do mileage <- (fun w => ask_mileage (stdin w) w);
  let vehicle := Vehicle_init make model year mileage (draw_vin r)
                              (draw_oil r) (draw_tire r) (draw_air r) in
  run vehicles_append vehicle;
  run save_vehicles;
  run input;
  ret tt.

(** [view_history]; the lines printed for each record need the formatting
    of dates and numbers and are not logged. *)
Definition view_history : App unit :=
  do sel <- select_vehicle;
  match sel with
  | None => ret tt
  | Some i =>
      do history <- on_vehicle i (getattr maintenance_history);
      run (match history with
           | [] => print (Say "No maintenance history recorded.")
           | _ => ret tt
           end);
      run input;
      ret tt
  end.

(** How a session ends: [sys.exit(status)], an exception that leaves
    [main_menu], or, in this model only, the end of the fuel. *)
Inductive ending :=
| Exit (status : Z)
| Uncaught (e : exn)
| OutOfFuel.

(** [main_menu]: one round of the [while True] per unit of fuel; [rng k] are
    the draws of the [k]-th vehicle added in the session. The banner and the
    menu itself are not logged. *)
Fixpoint main_menu (rng : nat -> Draws) (fuel : nat) (k : nat) (w : World)
  : ending * World :=
  match fuel with
  | O => (OutOfFuel, w)
  | S fuel' =>
      match input w with
      | (Raised e, w1) => (Uncaught e, w1)
      | (Done line, w1) =>
          let choice := strip line in
          let next (k' : nat) (r : outcome unit * World) : ending * World :=
            match r with
            | (Done _, w2) => main_menu rng fuel' k' w2
            | (Raised e, w2) => (Uncaught e, w2)
            end in
          if decide (choice = "1") then
            next (S k) (add_vehicle (rng k) w1)
          else if decide (choice = "2") then next k (update_mileage w1)
          else if decide (choice = "3") then next k (check_maintenance w1)
          else if decide (choice = "4") then next k (schedule_service w1)
          else if decide (choice = "5") then next k (view_history w1)
          else if decide (choice = "6") then
            (Exit 0, (print (Say "Thank you for using CarButler!") w1).2)
          else
            next k ((run print (Say "Invalid option. Please try again.");
                     run input;
                     ret tt) w1)
      end
  end.

End Menu.

(** ** What a session never loses *)

(** [v'] is [v] later in the session: same identity and last-service
    readings, and a history that starts with the history of [v]. *)
Definition kept (v v' : Vehicle) : Prop :=
  make v' = make v /\ model v' = model v /\ year v' = year v /\ vin v' = vin v /\
  last_oil_change v' = last_oil_change v /\
  last_tire_rotation v' = last_tire_rotation v /\
  last_air_filter v' = last_air_filter v /\
  maintenance_history v `prefix_of` maintenance_history v'.

Definition nothing_lost (vs vs' : list Vehicle) : Prop :=
  forall k v, vs !! k = Some v -> exists v', vs' !! k = Some v' /\ kept v v'.





(** ** The evaluator: proofs *)

Lemma interval_oil : interval_max "oil_change" = 7500.
Proof. vm_compute. reflexivity. Qed.

Lemma interval_tire : interval_max "tire_rotation" = 8000.
Proof. vm_compute. reflexivity. Qed.

Lemma interval_air : interval_max "air_filter" = 30000.
Proof. vm_compute. reflexivity. Qed.

Example sample_due_soon :
  due_items (sample 50000 42600 49000 49000) = [("Oil Change", 100, "DUE SOON")].
Proof. vm_compute. reflexivity. Qed.

Example sample_all_quiet : due_items (sample 30000 28000 27000 10000) = [].
Proof. vm_compute. reflexivity. Qed.

(** Open the evaluator on a record and replace the three table lookups by
    their values. *)
Ltac open_evaluator :=
  unfold due_items, check_maintenance_due, vbind, getattr, vret;
  rewrite ?interval_oil, ?interval_tire, ?interval_air;
  cbn [fst snd].

(** One case per outcome of every threshold test still in the goal. *)
Ltac split_bands :=
  repeat match goal with
         | |- context [Z.leb ?a ?b] => destruct (Z.leb_spec a b)
         end.

(** C1: the oil-change item follows the band of
    [miles_since = mileage - last_oil_change]: OVERDUE from 7500 on, DUE SOON
    in [7000, 7500) with (0, 500] miles remaining, UPCOMING in [6500, 7000)
    with (500, 1000] miles remaining, and no item below 6500; a vehicle at
    50000 miles whose last oil change was at 42600 has 100 miles remaining
    and is DUE SOON. *)
Theorem oil_change_bands (v : Vehicle) :
  let miles_since := mileage v - last_oil_change v in
  let miles_remaining := 7500 - miles_since in
  (7500 <= miles_since ->
     items_named "Oil Change" (due_items v) = [("Oil Change", 0, "OVERDUE")]) /\
  (7000 <= miles_since < 7500 ->
     items_named "Oil Change" (due_items v)
       = [("Oil Change", miles_remaining, "DUE SOON")]
     /\ 0 < miles_remaining <= 500) /\
  (6500 <= miles_since < 7000 ->
     items_named "Oil Change" (due_items v)
       = [("Oil Change", miles_remaining, "UPCOMING")]
     /\ 500 < miles_remaining <= 1000) /\
  (miles_since < 6500 -> items_named "Oil Change" (due_items v) = []) /\
  (mileage v = 50000 -> last_oil_change v = 42600 ->
     items_named "Oil Change" (due_items v) = [("Oil Change", 100, "DUE SOON")]).
Proof.
  cbv zeta. repeat split; try lia.
  all: intros; open_evaluator; split_bands; try lia; try reflexivity.
  all: replace (7500 - (mileage v - last_oil_change v)) with 100 by lia.
  all: reflexivity.
Qed.

Lemma oil_change_bands_witness :
  let v := sample 50000 42600 49000 49000 in
  items_named "Oil Change" (due_items v) = [("Oil Change", 100, "DUE SOON")].
Proof.
  intros v.
  exact (proj2 (proj2 (proj2 (proj2 (oil_change_bands v)))) eq_refl eq_refl).
Defined.

(** C4: the air filter has no DUE SOON tier. With
    [remaining = 30000 - (mileage - last_air_filter)] the air-filter item is
    OVERDUE when [remaining <= 0], UPCOMING when [0 < remaining <= 2000] and
    absent otherwise; a vehicle at 30000 miles whose filter was changed at
    10000 gets no air-filter item. *)
Theorem air_filter_bands (v : Vehicle) :
  let remaining := 30000 - (mileage v - last_air_filter v) in
  (remaining <= 0 ->
     items_named "Air Filter" (due_items v) = [("Air Filter", 0, "OVERDUE")]) /\
  (0 < remaining <= 2000 ->
     items_named "Air Filter" (due_items v)
       = [("Air Filter", remaining, "UPCOMING")]) /\
  (2000 < remaining -> items_named "Air Filter" (due_items v) = []) /\
  (forall it, it ∈ due_items v -> item_name it = "Air Filter" ->
     item_status it <> "DUE SOON") /\
  (mileage v = 30000 -> last_air_filter v = 10000 ->
     items_named "Air Filter" (due_items v) = []).
Proof.
  cbv zeta. repeat split.
  1-3, 5: intros; open_evaluator; split_bands; try lia; reflexivity.
  intros it Hin Hname. revert Hin. open_evaluator. split_bands.
  all: cbn [app]; intros Hin.
  all: repeat match goal with
              | H : _ ∈ _ :: _ |- _ => apply elem_of_cons in H; destruct H as [-> | H]
              | H : _ ∈ [] |- _ => apply elem_of_nil in H; destruct H
              end.
  all: try discriminate Hname; discriminate.
Qed.

Lemma air_filter_bands_witness :
  let v := sample 30000 28000 27000 10000 in
  items_named "Air Filter" (due_items v) = [].
Proof.
  intros v.
  exact (proj2 (proj2 (proj2 (proj2 (air_filter_bands v)))) eq_refl eq_refl).
Defined.

(** C10: an item classified OVERDUE carries the miles value 0, not the
    computed (zero or negative) remainder, so every miles value the
    evaluator returns is non-negative. *)
Theorem overdue_miles_zero (v : Vehicle) (it : Item) :
  it ∈ due_items v ->
  (item_status it = "OVERDUE" -> item_miles it = 0) /\ 0 <= item_miles it.
Proof.
  open_evaluator. split_bands.
  all: cbn [app]; intros Hin.
  all: repeat match goal with
              | H : _ ∈ _ :: _ |- _ => apply elem_of_cons in H; destruct H as [-> | H]
              | H : _ ∈ [] |- _ => apply elem_of_nil in H; destruct H
              end.
  all: unfold item_status, item_miles; cbn [fst snd]; split; [ | lia].
  all: intros Hst; try reflexivity; discriminate Hst.
Qed.

Lemma overdue_miles_zero_witness :
  item_miles ("Oil Change", 0, "OVERDUE") = 0 /\
  oil_remaining (sample 60000 50000 59000 59000) = -2500.
Proof.
  split; [ | reflexivity].
  apply (overdue_miles_zero (sample 60000 50000 59000 59000)
                            ("Oil Change", 0, "OVERDUE")).
  - vm_compute. left.
  - reflexivity.
Defined.

(** C8: the output lists the services in the fixed order oil change, tire
    rotation, air filter (the names form a subsequence of that triple,
    whatever the urgencies are), and a service appears exactly when its
    remaining miles are within its widest threshold: nothing stands in for a
    service that is not due. *)
Theorem output_order_fixed (v : Vehicle) :
  let names : list string := item_name <$> due_items v in
  sublist names ["Oil Change"; "Tire Rotation"; "Air Filter"] /\
  ("Oil Change" ∈ names <-> oil_remaining v <= 1000) /\
  ("Tire Rotation" ∈ names <-> tire_remaining v <= 1000) /\
  ("Air Filter" ∈ names <-> air_remaining v <= 2000) /\
  Z.of_nat (length (due_items v))
    = (if decide (oil_remaining v <= 1000) then 1 else 0)
      + (if decide (tire_remaining v <= 1000) then 1 else 0)
      + (if decide (air_remaining v <= 2000) then 1 else 0).
Proof.
  cbv zeta. unfold oil_remaining, tire_remaining, air_remaining.
  open_evaluator. split_bands.
  all: cbn [app fmap list_fmap item_name fst snd length].
  all: repeat case_decide; try lia.
  all: split; [ repeat constructor | ].
  all: repeat apply conj; try reflexivity; try (intros ?; lia).
  all: try (intros _; solve [repeat constructor]).
  all: intros Hin; exfalso.
  all: repeat match goal with
              | H : _ ∈ _ :: _ |- _ =>
                  apply elem_of_cons in H; destruct H as [H | H]; [discriminate H | ]
              | H : _ ∈ [] |- _ => apply elem_of_nil in H; destruct H
              end.
Qed.

(** The order does not follow urgency: an UPCOMING oil change is listed before
    an OVERDUE air filter. *)
Example order_not_by_urgency :
  due_items (sample 50000 43300 49000 20000)
  = [("Oil Change", 800, "UPCOMING"); ("Air Filter", 0, "OVERDUE")].
Proof. vm_compute. reflexivity. Qed.

Lemma output_order_fixed_witness :
  let v := sample 50000 43300 49000 20000 in
  "Oil Change" ∈ item_name <$> due_items v.
Proof.
  intros v. apply (proj1 (proj2 (output_order_fixed v))). vm_compute. discriminate.
Defined.

(** C7: the evaluator leaves the record it is given as it found it, a second
    call on the same object returns the same list, and the list depends on
    the odometer and the three last-service readings only. *)
Theorem evaluator_pure (v : Vehicle) :
  (check_maintenance_due v).2 = v /\
  (let '(first, v1) := check_maintenance_due v in
   let '(second, v2) := check_maintenance_due v1 in
   first = second /\ v2 = v) /\
  (forall v' : Vehicle,
     mileage v' = mileage v ->
     last_oil_change v' = last_oil_change v ->
     last_tire_rotation v' = last_tire_rotation v ->
     last_air_filter v' = last_air_filter v ->
     due_items v' = due_items v).
Proof.
  assert (Hsame : (check_maintenance_due v).2 = v) by reflexivity.
  split; [exact Hsame | split].
  - destruct (check_maintenance_due v) as [first v1] eqn:E1.
    cbn [snd] in Hsame. subst v1. rewrite E1. split; reflexivity.
  - intros v' Hm Ho Ht Ha. unfold due_items, check_maintenance_due, vbind, getattr, vret.
    cbn [fst]. rewrite Hm, Ho, Ht, Ha. reflexivity.
Qed.

Lemma evaluator_pure_witness :
  due_items (set_battery_voltage 11.8%float (sample 50000 42600 49000 49000))
  = due_items (sample 50000 42600 49000 49000).
Proof.
  apply (proj2 (proj2 (evaluator_pure (sample 50000 42600 49000 49000))));
    reflexivity.
Defined.

(** ** The application: runs and proofs *)

Example manual_update_run :
  let w := (update_mileage (garage ["1"; "n"; "abc"; "49000"; "50250"; ""])).2 in
  mileage <$> vehicles w = [50250] /\
  stdout w = [ CurrentMileage 50000;
               Say "Please enter a valid number.";
               Say "New mileage must be greater than current mileage.";
               MileageUpdated 50250 ].
Proof. vm_compute. split; reflexivity. Qed.

Example schedule_run :
  let w := (schedule_service (garage ["1"; "1"; "2"; "n"; ""])).2 in
  maintenance_history <$> vehicles w
  = [[mk_entry "Air Filter" (mk_datetime 739002 1) 50000 "scheduled"]].
Proof. vm_compute. reflexivity. Qed.

(** *** Reading and writing the selected vehicle *)

Lemma set_vehicles_same (w : World) : set_vehicles (vehicles w) w = w.
Proof. destruct w; reflexivity. Qed.

Lemma on_vehicle_read {A} (i : nat) (m : OnVehicle A) (w : World) (v : Vehicle) :
  vehicles w !! i = Some v -> (m v).2 = v -> on_vehicle i m w = (Done (m v).1, w).
Proof.
  intros Hi Hm. unfold on_vehicle. rewrite Hi.
  destruct (m v) as [a v'] eqn:E. cbn [fst snd] in *. subst v'.
  rewrite (list_insert_id _ _ _ Hi), set_vehicles_same. reflexivity.
Qed.

Lemma on_vehicle_getattr {A} (i : nat) (f : Vehicle -> A) (w : World) (v : Vehicle) :
  vehicles w !! i = Some v -> on_vehicle i (getattr f) w = (Done (f v), w).
Proof. intros Hi. apply (on_vehicle_read i (getattr f) w v Hi). reflexivity. Qed.

Lemma on_vehicle_setattr (i : nat) (upd : Vehicle -> Vehicle) (w : World) (v : Vehicle) :
  vehicles w !! i = Some v ->
  on_vehicle i (setattr upd) w
  = (Done tt, set_vehicles (<[i := upd v]> (vehicles w)) w).
Proof. intros Hi. unfold on_vehicle, setattr. rewrite Hi. reflexivity. Qed.

(** *** Comparisons of binary64 values *)






(** What the report of [update_mileage] prints. *)
Lemma report_update_stdout `{!Builtins} (w : World) (i : nat) (v : Vehicle) :
  vehicles w !! i = Some v ->
  stdout (report_update i w).2
  = stdout w
      ++ match write_ok w (writes w) with Written => [] | _ => [SaveFailed] end
      ++ MileageUpdated (mileage v)
      :: (if PrimFloat.ltb (battery_voltage v) 12.0
          then [BatteryLow (battery_voltage v)] else []).
Proof.
  intros Hi. unfold report_update, bind, save_vehicles.
  destruct (write_ok w (writes w));
    rewrite (on_vehicle_getattr i mileage _ v) by exact Hi;
    unfold print at 1;
    rewrite (on_vehicle_getattr i battery_voltage _ v) by exact Hi;
    destruct (PrimFloat.ltb (battery_voltage v) 12.0); unfold print, ret, input;
      cbn [stdout set_stdout set_saved set_writes set_file_torn stdin];
      destruct (stdin w); cbn; rewrite <- ?app_assoc; reflexivity.
Qed.



(** *** Operations that leave the vehicle list alone *)

Lemma keeps_ret {A} (a : A) : keeps_vehicles (ret a).
Proof. intros w. reflexivity. Qed.

Lemma keeps_raise {A} (e : exn) : keeps_vehicles (@raise A e).
Proof. intros w. reflexivity. Qed.

Lemma keeps_bind {A B} (m : App A) (k : A -> App B) :
  keeps_vehicles m -> (forall a, keeps_vehicles (k a)) -> keeps_vehicles (bind m k).
Proof.
  intros Hm Hk w. unfold bind. specialize (Hm w).
  destruct (m w) as [[a | e] w']; cbn [snd] in *.
  - rewrite Hk. exact Hm.
  - exact Hm.
Qed.

Lemma keeps_input : keeps_vehicles input.
Proof. intros w. unfold input. destruct (stdin w); reflexivity. Qed.

Lemma keeps_print (o : Output) : keeps_vehicles (print o).
Proof. intros w. reflexivity. Qed.

Lemma keeps_save : keeps_vehicles save_vehicles.
Proof. intros w. unfold save_vehicles. destruct (write_ok w (writes w)); reflexivity. Qed.

Lemma keeps_get_now : keeps_vehicles get_now.
Proof. intros w. reflexivity. Qed.

Lemma keeps_index {A} (l : list A) (k : Z) : keeps_vehicles (index l k).
Proof. intros w. unfold index. destruct (l !! Z.to_nat k); reflexivity. Qed.

Lemma keeps_on_vehicle {A} (i : nat) (m : OnVehicle A) :
  (forall v, (m v).2 = v) -> keeps_vehicles (on_vehicle i m).
Proof.
  intros Hm w. unfold on_vehicle.
  destruct (vehicles w !! i) as [v | ] eqn:Hi; [ | reflexivity].
  specialize (Hm v). destruct (m v) as [a v']. cbn [snd] in *. subst v'.
  cbn. apply list_insert_id. exact Hi.
Qed.

Lemma keeps_evaluator (i : nat) : keeps_vehicles (on_vehicle i check_maintenance_due).
Proof. apply keeps_on_vehicle. reflexivity. Qed.

Create HintDb keeps discriminated.
#[local] Hint Resolve keeps_ret keeps_raise keeps_input keeps_print keeps_save
  keeps_get_now keeps_index keeps_evaluator : keeps.

(** A sequence that ended normally went through its first part normally. *)
Lemma bind_done {A B} (m : App A) (k : A -> App B) (w w' : World) (b : B) :
  bind m k w = (Done b, w') ->
  exists a w1, m w = (Done a, w1) /\ k a w1 = (Done b, w').
Proof.
  unfold bind. destruct (m w) as [[a | e] w1]; [eauto | discriminate].
Qed.

Section Operations.

Context `{!Builtins}.

Lemma keeps_ask_choice (n : Z) (lines : list string) :
  keeps_vehicles (ask_choice n lines).
Proof.
  induction lines as [ | l rest IH]; cbn [ask_choice]; [auto with keeps | ].
  apply keeps_bind; [auto with keeps | intros a].
  destruct (int_of a) as [choice | ].
  - destruct ((1 <=? choice) && (choice <=? n)); [auto with keeps | ].
    apply keeps_bind; auto with keeps.
  - apply keeps_bind; auto with keeps.
Qed.

Lemma keeps_prompt_choice (n : Z) : keeps_vehicles (prompt_choice n).
Proof. intros w. unfold prompt_choice. apply keeps_ask_choice. Qed.

Lemma keeps_select_vehicle : keeps_vehicles select_vehicle.
Proof.
  intros w. unfold select_vehicle. destruct (vehicles w) eqn:E; rewrite <- E.
  - apply (keeps_bind (print _) (fun _ => ret None)); auto with keeps.
  - apply (keeps_bind (prompt_choice _) (fun c => ret (Some (Z.to_nat (c - 1)))));
      [apply keeps_prompt_choice | auto with keeps].
Qed.

Lemma keeps_collect_dates (days : list Z) (dates : list datetime) :
  keeps_vehicles (collect_dates days dates).
Proof.
  revert dates. induction days as [ | i rest IH]; intros dates; cbn [collect_dates].
  - auto with keeps.
  - apply keeps_bind; [auto with keeps | intros today]. apply IH.
Qed.

Lemma keeps_candidate_dates : keeps_vehicles candidate_dates.
Proof. apply keeps_collect_dates. Qed.

#[local] Hint Resolve keeps_prompt_choice keeps_select_vehicle
  keeps_candidate_dates : keeps.

Lemma keeps_select_service_and_date : keeps_vehicles select_service_and_date.
Proof.
  unfold select_service_and_date.
  apply keeps_bind; [auto with keeps | intros [i | ]]; [ | auto with keeps].
  apply keeps_bind; [auto with keeps | intros due].
  destruct due as [ | it due'];
    repeat (apply keeps_bind; [auto with keeps | intros ?]); auto with keeps.
Qed.

(** A selection hands back the position of a vehicle that is in the list. *)
Lemma selection_in_range (w w1 : World) (i : nat) (service : string)
      (date : datetime) :
  select_service_and_date w = (Done (Some (i, service, date)), w1) ->
  exists v, vehicles w !! i = Some v.
Proof.
  unfold select_service_and_date. intros Hrun.
  apply bind_done in Hrun as ([j | ] & w2 & Hsel & Hrun); [ | discriminate].
  assert (Hkeep : vehicles w2 = vehicles w).
  { pose proof (keeps_select_vehicle w) as Hk. rewrite Hsel in Hk. exact Hk. }
  apply bind_done in Hrun as (due & w3 & Hdue & Hrun).
  unfold on_vehicle in Hdue. rewrite Hkeep in Hdue.
  destruct (vehicles w !! j) as [v | ] eqn:Hj; [ | discriminate].
  destruct due as [ | it due'].
  - apply bind_done in Hrun as (? & ? & _ & Hrun).
    apply bind_done in Hrun as (? & ? & _ & Hrun). discriminate.
  - do 4 (apply bind_done in Hrun as (? & ? & _ & Hrun)).
    apply bind_done in Hrun as (? & ? & _ & Hrun).
    injection Hrun as -> _ _. eauto.
Qed.

(** The history record is written whatever becomes of the email. *)
Lemma record_appointment_appends (w : World) (i : nat) (service : string)
      (date : datetime) (v : Vehicle) :
  vehicles w !! i = Some v ->
  email_prompt_answered w = true ->
  vehicles (record_appointment i service date w).2
  = <[i := history_append (mk_entry service date (mileage v) "scheduled") v]>
      (vehicles w).
Proof.
  intros Hi Hans. unfold email_prompt_answered in Hans.
  unfold record_appointment, bind, calendar_create_event.
  unfold print at 1. unfold input at 1. cbn [stdin set_stdout].
  destruct (stdin w) as [ | answer rest]; [discriminate | ].
  destruct (is_y answer).
  - apply bool_decide_eq_true in Hans.
    unfold input at 1. cbn [stdin set_stdin].
    destruct rest as [ | address rest']; [congruence | ].
    unfold email_send_email. cbn [email_ok set_stdin set_stdout].
    destruct (email_ok w); unfold print at 1; cbn beta iota;
      rewrite (on_vehicle_getattr i mileage _ v) by exact Hi;
      rewrite (on_vehicle_setattr i _ _ v) by exact Hi;
      unfold save_vehicles, input, ret; cbn;
      destruct (write_ok w (writes w)); cbn; destruct rest'; reflexivity.
  - unfold ret at 1.
    rewrite (on_vehicle_getattr i mileage _ v) by exact Hi.
    rewrite (on_vehicle_setattr i _ _ v) by exact Hi.
    unfold save_vehicles, input, ret; cbn;
      destruct (write_ok w (writes w)); cbn; destruct rest; reflexivity.
Qed.

(** What a run of [record_appointment] leaves in the vehicle list is settled
    by the list and by what is typed; the answer of the email service has no
    part in it. *)
Lemma record_appointment_vehicles (w : World) (i : nat) (service : string)
      (date : datetime) :
  vehicles (record_appointment i service date w).2
  = if email_prompt_answered w then
      match vehicles w !! i with
      | Some v =>
          <[i := history_append (mk_entry service date (mileage v) "scheduled") v]>
            (vehicles w)
      | None => vehicles w
      end
    else vehicles w.
Proof.
  destruct (email_prompt_answered w) eqn:Hans.
  - destruct (vehicles w !! i) as [v | ] eqn:Hi.
    + apply record_appointment_appends; assumption.
    + unfold email_prompt_answered in Hans.
      unfold record_appointment, bind, calendar_create_event.
      unfold print at 1. unfold input at 1. cbn [stdin set_stdout].
      destruct (stdin w) as [ | answer rest]; [discriminate | ].
      destruct (is_y answer).
      * apply bool_decide_eq_true in Hans.
        unfold input at 1. cbn [stdin set_stdin].
        destruct rest as [ | address rest']; [congruence | ].
        unfold email_send_email. cbn [email_ok set_stdin set_stdout].
        destruct (email_ok w); unfold print at 1; cbn beta iota;
          unfold on_vehicle at 1; cbn [vehicles set_stdin set_stdout];
          rewrite Hi; reflexivity.
      * unfold ret at 1. unfold on_vehicle at 1. cbn [vehicles set_stdin set_stdout].
        rewrite Hi. reflexivity.
  - unfold email_prompt_answered in Hans.
    unfold record_appointment, bind, calendar_create_event.
    unfold print at 1. unfold input at 1. cbn [stdin set_stdout].
    destruct (stdin w) as [ | answer rest]; [reflexivity | ].
    destruct (is_y answer); [ | discriminate].
    apply bool_decide_eq_false in Hans.
    destruct rest as [ | address rest']; [reflexivity | ].
    exfalso. apply Hans. discriminate.
Qed.

Lemma record_appointment_ignores_email (w : World) (i : nat) (service : string)
      (date : datetime) (ok : bool) :
  vehicles (record_appointment i service date (set_email_ok ok w)).2
  = vehicles (record_appointment i service date w).2.
Proof. rewrite !record_appointment_vehicles. reflexivity. Qed.

(** A run that reached a service and a date writes the record into the
    selected vehicle, and into that vehicle only. *)
Lemma schedule_service_appends (w w1 : World) (i : nat) (service : string)
      (date : datetime) :
  select_service_and_date w = (Done (Some (i, service, date)), w1) ->
  email_prompt_answered w1 = true ->
  exists v, vehicles w !! i = Some v /\
    vehicles (schedule_service w).2
    = <[i := history_append (mk_entry service date (mileage v) "scheduled") v]>
        (vehicles w).
Proof.
  intros Hsel Hans.
  destruct (selection_in_range _ _ _ _ _ Hsel) as [v Hv].
  assert (Hkeep : vehicles w1 = vehicles w).
  { pose proof (keeps_select_service_and_date w) as Hk. rewrite Hsel in Hk. exact Hk. }
  exists v. split; [exact Hv | ].
  unfold schedule_service, bind. rewrite Hsel.
  rewrite (record_appointment_appends w1 i service date v), Hkeep;
    [reflexivity | rewrite Hkeep; exact Hv | exact Hans].
Qed.

(** A run that returned or stopped before a service and a date were chosen
    leaves every vehicle as it was. *)
Lemma schedule_service_idle (w : World) :
  (forall i service date w1,
     select_service_and_date w <> (Done (Some (i, service, date)), w1)) ->
  vehicles (schedule_service w).2 = vehicles w.
Proof.
  intros Hnone. pose proof (keeps_select_service_and_date w) as Hk.
  unfold schedule_service, bind.
  destruct (select_service_and_date w) as [[[[[i service] date] | ] | e] w1];
    cbn [snd] in *; try exact Hk.
  exfalso. apply (Hnone i service date w1). reflexivity.
Qed.

(** After [history_append] the history is the old one with the new record at
    its end, and that is all that changes in the list. *)
Lemma insert_appended (i : nat) (service : string) (date : datetime)
      (vs : list Vehicle) (v : Vehicle) :
  vs !! i = Some v ->
  one_entry_appended i service date vs
    (<[i := history_append (mk_entry service date (mileage v) "scheduled") v]> vs).
Proof.
  intros Hv. exists v, (history_append (mk_entry service date (mileage v) "scheduled") v).
  split; [exact Hv | ]. split; [ | split; [ | split]].
  - apply list_lookup_insert_eq. eapply lookup_lt_Some. exact Hv.
  - reflexivity.
  - apply length_insert.
  - intros k Hk. apply list_lookup_insert_ne. congruence.
Qed.

(** A run that was cut off at the email question has written nothing. *)
Lemma schedule_service_cut_off (w w1 : World) (i : nat) (service : string)
      (date : datetime) :
  select_service_and_date w = (Done (Some (i, service, date)), w1) ->
  email_prompt_answered w1 = false ->
  vehicles (schedule_service w).2 = vehicles w.
Proof.
  intros Hsel Hans.
  assert (Hkeep : vehicles w1 = vehicles w).
  { pose proof (keeps_select_service_and_date w) as Hk. rewrite Hsel in Hk. exact Hk. }
  unfold schedule_service, bind. rewrite Hsel.
  rewrite record_appointment_vehicles, Hans. exact Hkeep.
Qed.

(** C6, amended: a scheduling run that got a service and a date, and in which
    the email question (and the request for an address, after a yes) is
    answered, appends exactly one record to the history of the selected
    vehicle, with status "scheduled" and the mileage the vehicle had when the
    run started, whether the email was sent, failed or was not asked for (the
    answer of the email service changes nothing in the vehicle list); when
    the input ends at the email question, or no service or date was selected,
    no record is written. *)
Theorem schedule_appends_one (w : World) :
  match select_service_and_date w with
  | (Done (Some (i, service, date)), w1) =>
      if email_prompt_answered w1 then
        one_entry_appended i service date (vehicles w)
                           (vehicles (schedule_service w).2) /\
        (forall ok : bool,
           vehicles (record_appointment i service date (set_email_ok ok w1)).2
           = vehicles (schedule_service w).2)
      else vehicles (schedule_service w).2 = vehicles w
  | _ => vehicles (schedule_service w).2 = vehicles w
  end.
Proof.
  destruct (select_service_and_date w) as [[[[[i service] date] | ] | e] w1] eqn:Hsel.
  - destruct (email_prompt_answered w1) eqn:Hans.
    + destruct (schedule_service_appends w w1 i service date Hsel Hans)
        as (v & Hv & Hafter).
      split.
      * rewrite Hafter. apply insert_appended. exact Hv.
      * intros ok. rewrite record_appointment_ignores_email.
        unfold schedule_service, bind. rewrite Hsel. reflexivity.
    + exact (schedule_service_cut_off w w1 i service date Hsel Hans).
  - apply schedule_service_idle. intros i service date w2. rewrite Hsel. discriminate.
  - apply schedule_service_idle. intros i service date w2. rewrite Hsel. discriminate.
Qed.

(** C5: [n] scheduling runs for a vehicle leave its history [n] entries
    longer, and every entry that was there before is still at its place,
    unchanged: the new history is the old one followed by [n] records. *)
Theorem scheduler_append_only (i n : nat) (vs vs' : list Vehicle) (v : Vehicle) :
  appointments i n vs vs' ->
  vs !! i = Some v ->
  exists v' : Vehicle,
    vs' !! i = Some v' /\
    length (maintenance_history v') = (length (maintenance_history v) + n)%nat /\
    (forall (k : nat) (e : HistoryEntry),
       maintenance_history v !! k = Some e -> maintenance_history v' !! k = Some e) /\
    exists new : list HistoryEntry,
      maintenance_history v' = maintenance_history v ++ new /\ length new = n.
Proof.
  intros Hruns. revert v.
  induction Hruns as [vs | n w w1 service date vs' Hsel Hans Hruns IH]; intros v Hv.
  - exists v. split; [exact Hv | ]. split; [lia | ]. split; [auto | ].
    exists []. split; [symmetry; apply app_nil_r | reflexivity].
  - destruct (schedule_service_appends w w1 i service date Hsel Hans)
      as (v0 & Hv0 & Hafter).
    rewrite Hv in Hv0. injection Hv0 as <-.
    set (e := mk_entry service date (mileage v) "scheduled") in *.
    destruct (IH (history_append e v)) as (v' & Hv' & _ & _ & new & Hnew & Hlen).
    { rewrite Hafter. apply list_lookup_insert_eq. eapply lookup_lt_Some. exact Hv. }
    cbn [history_append maintenance_history] in Hnew.
    rewrite <- app_assoc in Hnew. cbn [app] in Hnew.
    exists v'. split; [exact Hv' | ]. rewrite Hnew. split; [ | split].
    + rewrite length_app. cbn [length]. lia.
    + intros k x Hk. apply lookup_app_l_Some. exact Hk.
    + exists (e :: new). split; [reflexivity | cbn [length]; lia].
Qed.

(** The manual branch never lowers the odometer: whatever is typed, the
    selected vehicle ends with a mileage at least as high as before, and
    nothing else in the list changes. *)
Lemma ask_new_mileage_grows (i : nat) (v : Vehicle) (lines : list string) (w : World) :
  vehicles w !! i = Some v ->
  exists m, mileage v <= m /\
    vehicles (ask_new_mileage i lines w).2 = <[i := set_mileage m v]> (vehicles w).
Proof.
  assert (Hstay : forall w0 : World, vehicles w0 !! i = Some v ->
            vehicles w0 = <[i := set_mileage (mileage v) v]> (vehicles w0)).
  { intros w0 H0. symmetry. apply list_insert_id. rewrite H0. destruct v; reflexivity. }
  revert w. induction lines as [ | l rest IH]; intros w Hi.
  - exists (mileage v). split; [lia | ]. apply (Hstay w Hi).
  - cbn [ask_new_mileage]. unfold bind at 1. unfold input at 1.
    destruct (stdin w) as [ | typed later].
    { exists (mileage v). split; [lia | ]. apply (Hstay w Hi). }
    destruct (int_of typed) as [new_mileage | ].
    + unfold bind at 1.
      rewrite (on_vehicle_getattr i mileage _ v) by exact Hi.
      destruct (Z.leb_spec (mileage v) new_mileage) as [Hle | Hlt].
      * rewrite (on_vehicle_setattr i _ _ v) by exact Hi.
        exists new_mileage. split; [exact Hle | reflexivity].
      * unfold bind at 1, print at 1.
        match goal with
        | |- context [ask_new_mileage i rest ?w1] => exact (IH w1 Hi)
        end.
    + unfold bind at 1, print at 1.
      match goal with
      | |- context [ask_new_mileage i rest ?w1] => exact (IH w1 Hi)
      end.
Qed.

(** Raising the odometer and appending to the history keep the last-service
    readings behind the odometer. *)
Lemma set_mileage_keeps_readings (m : Z) (v : Vehicle) :
  mileage v <= m -> readings_behind v -> readings_behind (set_mileage m v).
Proof. unfold readings_behind. cbn. lia. Qed.

Lemma history_append_keeps_readings (e : HistoryEntry) (v : Vehicle) :
  readings_behind v -> readings_behind (history_append e v).
Proof. unfold readings_behind. cbn. tauto. Qed.

End Operations.

(** *** Runs at the keyboard *)

(** The claim as the specification has it, without the proviso on the input:
    a service and a date are selected, the input ends at the email question,
    the run stops with [EOFError] and the history is as empty as before. *)
Lemma schedule_cut_off_appends_nothing :
  let w := garage ["1"; "1"; "2"] in
  let date := mk_datetime 739002 1 in
  (select_service_and_date w).1 = Done (Some (0%nat, "Air Filter", date)) /\
  (schedule_service w).1 = Raised EOFError /\
  maintenance_history <$> vehicles (schedule_service w).2 = [[]] /\
  ~ one_entry_appended 0 "Air Filter" date (vehicles w)
      (vehicles (schedule_service w).2).
Proof.
  intros w date. repeat apply conj; try (vm_compute; reflexivity).
  intros (v & v' & Hv & Hv' & Hnew & _).
  assert (Hsame : vehicles (schedule_service w).2 = vehicles w)
    by (vm_compute; reflexivity).
  rewrite Hsame, Hv in Hv'. injection Hv' as <-.
  apply (f_equal length) in Hnew. rewrite length_app in Hnew.
  cbn [length] in Hnew. lia.
Qed.

Lemma schedule_appends_one_witness :
  let w := garage ["1"; "1"; "2"; "y"; "shop@example.com"; ""] in
  one_entry_appended 0 "Air Filter" (mk_datetime 739002 1) (vehicles w)
                     (vehicles (schedule_service w).2).
Proof.
  intros w. pose proof (schedule_appends_one w) as Hrun.
  assert (Hsel : select_service_and_date w
                 = (Done (Some (0%nat, "Air Filter", mk_datetime 739002 1)),
                    (select_service_and_date w).2))
    by (vm_compute; reflexivity).
  rewrite Hsel in Hrun.
  assert (Hans : email_prompt_answered (select_service_and_date w).2 = true)
    by (vm_compute; reflexivity).
  rewrite Hans in Hrun. exact (proj1 Hrun).
Defined.

Lemma scheduler_append_only_witness :
  let w := garage ["1"; "1"; "2"; "n"; ""] in
  let w' := set_stdin ["1"; "1"; "5"; "n"; ""] (schedule_service w).2 in
  exists v', vehicles (schedule_service w').2 !! 0%nat = Some v' /\
             length (maintenance_history v') = 2%nat.
Proof.
  intros w w'.
  assert (Hruns : appointments 0 2 (vehicles w) (vehicles (schedule_service w').2)).
  { apply (appointments_next 0 1 w (select_service_and_date w).2
                              "Air Filter" (mk_datetime 739002 1));
      [vm_compute; reflexivity | vm_compute; reflexivity | ].
    replace (vehicles (schedule_service w).2) with (vehicles w')
      by (vm_compute; reflexivity).
    apply (appointments_next 0 0 w' (select_service_and_date w').2
                             "Air Filter" (mk_datetime 739007 13));
      [vm_compute; reflexivity | vm_compute; reflexivity | ].
    apply appointments_none. }
  destruct (scheduler_append_only 0 2 _ _ (sample 50000 47000 46000 20500)
                                  Hruns eq_refl) as (v' & Hv' & Hlen & _).
  exists v'. split; [exact Hv' | exact Hlen].
Defined.

(** C3: an accepted OBD2 reading is stored without being compared with the
    odometer: the reader shows 1000 miles, the user accepts, and a vehicle at
    50000 miles is left at 1000. *)
Theorem obd2_reading_lowers_mileage :
  let w := new_car_garage ["1"; "y"; "y"; ""] in
  mileage <$> vehicles w = [50000] /\
  mileage <$> vehicles (update_mileage w).2 = [1000] /\
  mileage <$> saved (update_mileage w).2 = [1000].
Proof. vm_compute. repeat split; reflexivity. Qed.

(** C2: the same run breaks the invariant of the record: before it every
    last-service reading is behind the odometer, after it the last oil
    change (47000) is ahead of the odometer (1000). *)
Theorem obd2_reading_breaks_invariant :
  let w := new_car_garage ["1"; "y"; "y"; ""] in
  Forall readings_behind (vehicles w) /\
  ~ Forall readings_behind (vehicles (update_mileage w).2).
Proof.
  intros w. split.
  - repeat constructor; cbn; lia.
  - assert (Hafter : vehicles (update_mileage w).2
                     = [set_battery_voltage 11.8%float
                          (set_mileage 1000 (sample 50000 47000 46000 35000))])
      by (vm_compute; reflexivity).
    rewrite Hafter. intros Hall.
    apply Forall_cons_1 in Hall as [(Hoil & _) _]. cbn in Hoil. lia.
Qed.

(** The vehicle of that run is one the constructor makes, and the reading
    one the mock reader gives out. *)
Example new_car_is_constructed :
  vehicles (new_car_garage [])
  = [Vehicle_init "Toyota" "Camry" 2020 50000 "MOCK12345" 3000 4000 15000].
Proof. reflexivity. Qed.

Lemma constructed_readings_behind (make model vin : string)
      (year mileage backlog_oil backlog_tire backlog_air : Z) :
  1000 <= backlog_oil <= 4000 ->
  2000 <= backlog_tire <= 6000 ->
  10000 <= backlog_air <= 20000 ->
  readings_behind (Vehicle_init make model year mileage vin
                                backlog_oil backlog_tire backlog_air).
Proof. unfold readings_behind. cbn. lia. Qed.

(** The accepted reading also brings the reader's voltage, 11.8 V, and the
    report warns about it. *)
Example obd2_update_warns :
  stdout (update_mileage (new_car_garage ["1"; "y"; "y"; ""])).2
  = [ CurrentMileage 50000; OBD2Data 1000 11.8; MileageUpdated 1000;
      BatteryLow 11.8 ].
Proof. vm_compute. reflexivity. Qed.

(** Typing the same reading instead is turned down. *)
Example manual_reading_rejected :
  let w := (update_mileage (new_car_garage ["1"; "n"; "1000"])).2 in
  mileage <$> vehicles w = [50000] /\
  stdout w = [ CurrentMileage 50000;
               Say "New mileage must be greater than current mileage." ].
Proof. vm_compute. split; reflexivity. Qed.

(** ** More on the evaluator *)

(** The output is the oil-change tiers, then the tire-rotation tiers, then
    the air-filter tiers. *)
Lemma due_items_tiers (v : Vehicle) :
  due_items v = three_tiers "Oil Change" (oil_remaining v)
                ++ three_tiers "Tire Rotation" (tire_remaining v)
                ++ two_tiers "Air Filter" (air_remaining v).
Proof.
  unfold three_tiers, two_tiers, oil_remaining, tire_remaining, air_remaining.
  open_evaluator. split_bands; reflexivity.
Qed.

Lemma in_three_tiers (name : string) (r : Z) (it : Item) :
  it ∈ three_tiers name r <->
  (r <= 0 /\ it = (name, 0, "OVERDUE")) \/
  (0 < r <= 500 /\ it = (name, r, "DUE SOON")) \/
  (500 < r <= 1000 /\ it = (name, r, "UPCOMING")).
Proof.
  unfold three_tiers. split_bands; rewrite ?list_elem_of_singleton, ?elem_of_nil;
    intuition (try lia; try congruence).
Qed.

Lemma in_two_tiers (name : string) (r : Z) (it : Item) :
  it ∈ two_tiers name r <->
  (r <= 0 /\ it = (name, 0, "OVERDUE")) \/
  (0 < r <= 2000 /\ it = (name, r, "UPCOMING")).
Proof.
  unfold two_tiers. split_bands; rewrite ?list_elem_of_singleton, ?elem_of_nil;
    intuition (try lia; try congruence).
Qed.

Lemma in_due_items (v : Vehicle) (it : Item) :
  it ∈ due_items v <->
  it ∈ three_tiers "Oil Change" (oil_remaining v) \/
  it ∈ three_tiers "Tire Rotation" (tire_remaining v) \/
  it ∈ two_tiers "Air Filter" (air_remaining v).
Proof. rewrite due_items_tiers, !elem_of_app. tauto. Qed.

(** X1: the tire-rotation item follows the miles left before 8000 miles since
    the last rotation: OVERDUE when none are left, DUE SOON with 1..500 left,
    UPCOMING with 501..1000 left, and no item otherwise. *)
Theorem tire_rotation_bands (v : Vehicle) :
  let miles_since := mileage v - last_tire_rotation v in
  let miles_until := 8000 - miles_since in
  (8000 <= miles_since ->
     items_named "Tire Rotation" (due_items v) = [("Tire Rotation", 0, "OVERDUE")]) /\
  (7500 <= miles_since < 8000 ->
     items_named "Tire Rotation" (due_items v)
       = [("Tire Rotation", miles_until, "DUE SOON")]) /\
  (7000 <= miles_since < 7500 ->
     items_named "Tire Rotation" (due_items v)
       = [("Tire Rotation", miles_until, "UPCOMING")]) /\
  (miles_since < 7000 -> items_named "Tire Rotation" (due_items v) = []).
Proof.
  cbv zeta. repeat apply conj.
  all: intros; open_evaluator; split_bands; try lia; reflexivity.
Qed.

Lemma tire_rotation_bands_witness :
  items_named "Tire Rotation" (due_items (sample 60000 50000 52300 59000))
  = [("Tire Rotation", 300, "DUE SOON")].
Proof.
  apply (proj1 (proj2 (tire_rotation_bands (sample 60000 50000 52300 59000)))).
  cbn. lia.
Defined.

(** X2: every item of the output names one of the three services, carries
    the miles left for that service cut off at 0, and has a status that fits
    its miles: OVERDUE with 0, DUE SOON with 1..500, UPCOMING with 501..1000
    (1..2000 for the air filter, which is never DUE SOON); no service is
    listed twice. *)
Theorem output_well_formed (v : Vehicle) :
  NoDup (item_name <$> due_items v) /\
  forall it : Item, it ∈ due_items v ->
    ((item_name it = "Oil Change" /\ item_miles it = Z.max 0 (oil_remaining v)) \/
     (item_name it = "Tire Rotation" /\ item_miles it = Z.max 0 (tire_remaining v)) \/
     (item_name it = "Air Filter" /\ item_miles it = Z.max 0 (air_remaining v))) /\
    ((item_status it = "OVERDUE" /\ item_miles it = 0) \/
     (item_status it = "DUE SOON" /\ 0 < item_miles it <= 500
        /\ item_name it <> "Air Filter") \/
     (item_status it = "UPCOMING" /\ item_name it <> "Air Filter"
        /\ 500 < item_miles it <= 1000) \/
     (item_status it = "UPCOMING" /\ item_name it = "Air Filter"
        /\ 0 < item_miles it <= 2000)).
Proof.
  split.
  - rewrite due_items_tiers. unfold three_tiers, two_tiers. split_bands; cbn.
    all: repeat (apply NoDup_cons; split;
                 [rewrite ?elem_of_cons, elem_of_nil; intuition discriminate | ]).
    all: apply NoDup_nil; exact I.
  - intros it Hin. apply in_due_items in Hin.
    rewrite !in_three_tiers, in_two_tiers in Hin.
    unfold item_name, item_miles, item_status.
    destruct Hin as [Hin | [Hin | Hin]];
      repeat match goal with H : _ \/ _ |- _ => destruct H as [H | H] end;
      destruct Hin as [Hr ->]; cbn [fst snd]; split.
    all: try (left; split; [reflexivity | lia]).
    all: try (right; left; split; [reflexivity | lia]).
    all: try (right; right; split; [reflexivity | lia]).
    all: try (left; split; [reflexivity | lia]).
    all: try (right; left; repeat split; [lia | lia | discriminate]).
    all: try (right; right; left; repeat split; [discriminate | lia | lia]).
    all: try (right; right; right; repeat split; lia).
Qed.

Lemma output_well_formed_witness :
  item_miles ("Air Filter", 1500, "UPCOMING")
  = Z.max 0 (air_remaining (sample 50000 47000 46000 21500)).
Proof.
  destruct (proj2 (output_well_formed (sample 50000 47000 46000 21500))
                  ("Air Filter", 1500, "UPCOMING")) as [Hname _].
  - vm_compute. left.
  - destruct Hname as [[Hn _] | [[Hn _] | [_ Hm]]];
      [discriminate Hn | discriminate Hn | exact Hm].
Defined.

(** X3: a vehicle as the constructor makes it has nothing due: whatever the
    three random backlogs are within their ranges, the evaluator returns the
    empty list. *)
Theorem nothing_due_when_constructed (make model vin : string)
        (year mileage backlog_oil backlog_tire backlog_air : Z) :
  1000 <= backlog_oil <= 4000 ->
  2000 <= backlog_tire <= 6000 ->
  10000 <= backlog_air <= 20000 ->
  due_items (Vehicle_init make model year mileage vin
                          backlog_oil backlog_tire backlog_air) = [].
Proof.
  intros Hoil Htire Hair. open_evaluator. cbn. split_bands; try lia. reflexivity.
Qed.

Lemma nothing_due_when_constructed_witness :
  due_items (Vehicle_init "Honda" "Civic" 2019 82000 "MOCK55555" 4000 6000 20000) = [].
Proof. apply nothing_due_when_constructed; lia. Defined.

Lemma three_tiers_later (name : string) (r r' : Z) (it : Item) :
  r' <= r -> it ∈ three_tiers name r ->
  exists it', it' ∈ three_tiers name r' /\ item_name it' = item_name it /\
              item_miles it' <= item_miles it /\
              urgency (item_status it) <= urgency (item_status it').
Proof.
  intros Hle Hin. apply in_three_tiers in Hin.
  assert (Hcases : r' <= 0 \/ 0 < r' <= 500 \/ 500 < r' <= 1000 \/ 1000 < r') by lia.
  destruct Hin as [[Hr ->] | [[Hr ->] | [Hr ->]]];
    destruct Hcases as [H' | [H' | [H' | H']]]; try lia;
    match goal with
    | _ : r' <= 0 |- _ => exists (name, 0, "OVERDUE")
    | _ : 0 < r' <= 500 |- _ => exists (name, r', "DUE SOON")
    | _ => exists (name, r', "UPCOMING")
    end.
  all: rewrite in_three_tiers; unfold item_name, item_miles, item_status;
    cbn [fst snd]; repeat apply conj; try reflexivity; try lia;
    try (vm_compute; discriminate).
  all: tauto.
Qed.

Lemma two_tiers_later (name : string) (r r' : Z) (it : Item) :
  r' <= r -> it ∈ two_tiers name r ->
  exists it', it' ∈ two_tiers name r' /\ item_name it' = item_name it /\
              item_miles it' <= item_miles it /\
              urgency (item_status it) <= urgency (item_status it').
Proof.
  intros Hle Hin. apply in_two_tiers in Hin.
  assert (Hcases : r' <= 0 \/ 0 < r' <= 2000 \/ 2000 < r') by lia.
  destruct Hin as [[Hr ->] | [Hr ->]];
    destruct Hcases as [H' | [H' | H']]; try lia;
    match goal with
    | _ : r' <= 0 |- _ => exists (name, 0, "OVERDUE")
    | _ => exists (name, r', "UPCOMING")
    end.
  all: rewrite in_two_tiers; unfold item_name, item_miles, item_status;
    cbn [fst snd]; repeat apply conj; try reflexivity; try lia;
    try (vm_compute; discriminate).
  all: tauto.
Qed.

Lemma due_items_later (v : Vehicle) (m : Z) (it : Item) :
  mileage v <= m ->
  it ∈ due_items v ->
  exists it' : Item,
    it' ∈ due_items (set_mileage m v) /\
    item_name it' = item_name it /\
    item_miles it' <= item_miles it /\
    urgency (item_status it) <= urgency (item_status it').
Proof.
  intros Hm Hin. apply in_due_items in Hin.
  destruct Hin as [Hin | [Hin | Hin]].
  - destruct (three_tiers_later "Oil Change" (oil_remaining v)
                (oil_remaining (set_mileage m v)) it) as (it' & H1 & H2);
      [unfold oil_remaining; cbn; lia | exact Hin | ].
    exists it'. split; [ | exact H2]. apply in_due_items. tauto.
  - destruct (three_tiers_later "Tire Rotation" (tire_remaining v)
                (tire_remaining (set_mileage m v)) it) as (it' & H1 & H2);
      [unfold tire_remaining; cbn; lia | exact Hin | ].
    exists it'. split; [ | exact H2]. apply in_due_items. tauto.
  - destruct (two_tiers_later "Air Filter" (air_remaining v)
                (air_remaining (set_mileage m v)) it) as (it' & H1 & H2);
      [unfold air_remaining; cbn; lia | exact Hin | ].
    exists it'. split; [ | exact H2]. apply in_due_items. tauto.
Qed.

(** X4: driving on never makes a service less pressing. When the odometer
    goes from [mileage v] to a higher reading and the last-service readings
    stay, every item listed before is still listed, with no more miles left
    and a status at least as urgent (UPCOMING, DUE SOON, OVERDUE in rising
    order). *)
Theorem urgency_grows_with_mileage (v : Vehicle) (m : Z) (it : Item) :
  mileage v <= m ->
  it ∈ due_items v ->
  exists it' : Item,
    it' ∈ due_items (set_mileage m v) /\
    item_name it' = item_name it /\
    item_miles it' <= item_miles it /\
    urgency (item_status it) <= urgency (item_status it').
Proof. apply due_items_later. Qed.

Lemma urgency_grows_with_mileage_witness :
  exists it', it' ∈ due_items (set_mileage 50600 (sample 50000 43300 49000 49000)) /\
              item_name it' = "Oil Change" /\ item_miles it' <= 800 /\
              1 <= urgency (item_status it').
Proof.
  apply (urgency_grows_with_mileage (sample 50000 43300 49000 49000) 50600
                                    ("Oil Change", 800, "UPCOMING")).
  - cbn. lia.
  - vm_compute. left.
Defined.

(** ** The dates on offer *)

Lemma weekday_range (d : datetime) : 0 <= weekday d < 7.
Proof. unfold weekday. apply Z.mod_pos_bound. lia. Qed.

Lemma weekday_plus_days (d : datetime) (k : Z) :
  weekday (plus_days d k) = (weekday d + k) mod 7.
Proof.
  unfold weekday, plus_days. cbn [toordinal].
  rewrite Zplus_mod_idemp_l. f_equal. lia.
Qed.

Lemma set_clock_reads_same (w : World) : set_clock_reads (clock_reads w) w = w.
Proof. destruct w; reflexivity. Qed.

(** The loop takes one reading per round and keeps the weekdays. *)
Lemma collect_dates_spec (days : list Z) (dates : list datetime) (w : World) :
  collect_dates days dates w
  = (Done (dates ++ offered (readings w (length days)) days),
     set_clock_reads (clock_reads w + length days)%nat w).
Proof.
  revert dates w. induction days as [ | i rest IH]; intros dates w.
  - cbn. rewrite app_nil_r, Nat.add_0_r, set_clock_reads_same. reflexivity.
  - cbn [collect_dates]. unfold bind at 1, get_now at 1. rewrite IH.
    unfold readings, offered, now.
    cbn [clock clock_reads set_clock_reads length seq fmap list_fmap zip_with].
    rewrite filter_cons. f_equal.
    + f_equal.
      destruct (decide (weekday (plus_days (clock w (clock_reads w)) i) < 5))
        as [Hd | Hd].
      * rewrite bool_decide_eq_true_2 by exact Hd. rewrite <- app_assoc. reflexivity.
      * rewrite bool_decide_eq_false_2 by exact Hd. reflexivity.
    + unfold set_clock_reads. cbn. f_equal. lia.
Qed.

Lemma candidate_dates_spec (w : World) :
  candidate_dates w
  = (Done (offered (readings w 7) (seqZ 1 7)),
     set_clock_reads (clock_reads w + 7)%nat w).
Proof. unfold candidate_dates. rewrite collect_dates_spec. reflexivity. Qed.

(** Every date on offer is a weekday, some [k + 1] days after the reading of
    round [k] (counting the rounds from 0). *)
Lemma offered_weekdays (w : World) :
  Forall (fun date =>
            weekday date < 5 /\
            exists k : nat, (k < 7)%nat /\
              date = plus_days (clock w (clock_reads w + k)%nat) (Z.of_nat k + 1))
         (offered (readings w 7) (seqZ 1 7)).
Proof.
  apply Forall_forall. intros date Hin.
  apply list_elem_of_filter in Hin as [Hwd Hin]. split; [exact Hwd | ].
  unfold readings in Hin. change (seqZ 1 7) with [1; 2; 3; 4; 5; 6; 7] in Hin.
  cbn [seq fmap list_fmap zip_with] in Hin.
  repeat (apply elem_of_cons in Hin as [-> | Hin];
          [ first [ exists 0%nat; split; [lia | rewrite Nat.add_0_r; reflexivity]
                  | exists 1%nat; split; [lia | rewrite Nat.add_1_r; reflexivity]
                  | exists 2%nat; split; [lia | f_equal; f_equal; lia]
                  | exists 3%nat; split; [lia | f_equal; f_equal; lia]
                  | exists 4%nat; split; [lia | f_equal; f_equal; lia]
                  | exists 5%nat; split; [lia | f_equal; f_equal; lia]
                  | exists 6%nat; split; [lia | f_equal; f_equal; lia] ] | ]).
  apply elem_of_nil in Hin. destruct Hin.
Qed.

(** When the seven readings fall on one day, five dates are kept, whatever
    day of the week it is. *)
Lemma offered_same_day (r1 r2 r3 r4 r5 r6 r7 : datetime) (day : Z) :
  Forall (fun r => toordinal r = day) [r1; r2; r3; r4; r5; r6; r7] ->
  let dates := offered [r1; r2; r3; r4; r5; r6; r7] [1; 2; 3; 4; 5; 6; 7] in
  length dates = 5%nat /\
  Forall (fun date => 1 <= toordinal date - day <= 7) dates /\
  StronglySorted (fun a b => toordinal a < toordinal b) dates.
Proof.
  intros Hday dates. subst dates.
  repeat match goal with
         | H : Forall _ (_ :: _) |- _ => apply Forall_cons_1 in H as [? H]
         end.
  clear Hday.
  unfold offered. cbn [zip_with].
  rewrite !filter_cons, filter_nil. unfold weekday, plus_days. cbn [toordinal].
  repeat match goal with H : toordinal _ = day |- _ => rewrite H; clear H end.
  pose proof (Z.mod_pos_bound day 7 ltac:(lia)) as Hrange.
  pose proof (Z.div_mod day 7 ltac:(lia)) as Hdiv.
  set (q := day / 7) in *. set (m := day mod 7) in *.
  assert (Hm : m = 0 \/ m = 1 \/ m = 2 \/ m = 3 \/ m = 4 \/ m = 5 \/ m = 6) by lia.
  clear Hrange.
  assert (Hwd : forall j : Z, (day + j + 6) mod 7 = (m + j + 6) mod 7).
  { intros j. rewrite Hdiv.
    replace (7 * q + m + j + 6) with (m + j + 6 + q * 7) by lia.
    apply Z_mod_plus_full. }
  rewrite !Hwd.
  repeat (destruct Hm as [Hm | Hm];
          [ rewrite Hm; cbn [decide]; vm_compute decide_rel;
            repeat apply conj;
            [ reflexivity
            | repeat constructor; cbn [toordinal]; lia
            | repeat constructor; cbn [toordinal]; lia ] | ]).
  rewrite Hm; cbn [decide]; vm_compute decide_rel;
    repeat apply conj;
    [ reflexivity
    | repeat constructor; cbn [toordinal]; lia
    | repeat constructor; cbn [toordinal]; lia ].
Qed.

(** X5: the dates on offer. Each of the seven rounds of the loop reads the
    clock, so seven readings are used up; every date offered is a weekday
    (Monday to Friday) and lies [k + 1] days after the reading of round [k],
    at that reading's time of day. When the seven readings fall on one day,
    exactly five dates are offered, one to seven days after that day, in
    chronological order. *)
Theorem five_weekdays_offered (w : World) :
  exists dates : list datetime,
    candidate_dates w = (Done dates, set_clock_reads (clock_reads w + 7)%nat w) /\
    Forall (fun date =>
              weekday date < 5 /\
              exists k : nat, (k < 7)%nat /\
                date = plus_days (clock w (clock_reads w + k)%nat) (Z.of_nat k + 1))
           dates /\
    forall day : Z,
      (forall k : nat, (k < 7)%nat ->
         toordinal (clock w (clock_reads w + k)%nat) = day) ->
      length dates = 5%nat /\
      Forall (fun date => 1 <= toordinal date - day <= 7) dates /\
      StronglySorted (fun a b => toordinal a < toordinal b) dates.
Proof.
  exists (offered (readings w 7) (seqZ 1 7)).
  split; [apply candidate_dates_spec | ]. split; [apply offered_weekdays | ].
  intros day Hday. unfold readings. cbn [seq fmap list_fmap].
  apply offered_same_day.
  repeat constructor.
  - rewrite <- (Hday 0%nat) by lia. rewrite Nat.add_0_r. reflexivity.
  - rewrite <- (Hday 1%nat) by lia. f_equal. f_equal. lia.
  - rewrite <- (Hday 2%nat) by lia. f_equal. f_equal. lia.
  - rewrite <- (Hday 3%nat) by lia. f_equal. f_equal. lia.
  - rewrite <- (Hday 4%nat) by lia. f_equal. f_equal. lia.
  - rewrite <- (Hday 5%nat) by lia. f_equal. f_equal. lia.
  - rewrite <- (Hday 6%nat) by lia. f_equal. f_equal. lia.
Qed.

Lemma five_weekdays_offered_witness :
  exists dates : list datetime,
    (candidate_dates (garage [])).1 = Done dates /\ length dates = 5%nat.
Proof.
  destruct (five_weekdays_offered (garage [])) as (dates & Hrun & _ & Hfive).
  exists dates. split; [rewrite Hrun; reflexivity | ].
  apply (Hfive 739000). intros k Hk. reflexivity.
Defined.

(** When midnight passes during the loop the count is not five: on a
    Wednesday, after three rounds, six dates are offered (Thursday twice);
    on a Friday, after two rounds, four (the Monday is lost). *)
Example six_dates_across_midnight :
  (candidate_dates (with_clock (midnight_clock 739000 3) (garage []))).1
  = Done [ mk_datetime 739001 86399; mk_datetime 739002 86399;
           mk_datetime 739005 0; mk_datetime 739006 0; mk_datetime 739007 0;
           mk_datetime 739008 0 ].
Proof. vm_compute. reflexivity. Qed.

Example four_dates_across_midnight :
  (candidate_dates (with_clock (midnight_clock 739002 2) (garage []))).1
  = Done [ mk_datetime 739006 0; mk_datetime 739007 0; mk_datetime 739008 0;
           mk_datetime 739009 0 ].
Proof. vm_compute. reflexivity. Qed.

(** ** What the operations leave alone *)

Lemma preserves_ret {A B} (f : World -> B) (a : A) : preserves f (ret a).
Proof. intros w. reflexivity. Qed.

Lemma preserves_raise {A B} (f : World -> B) (e : exn) : preserves f (@raise A e).
Proof. intros w. reflexivity. Qed.

Lemma preserves_bind {A B C} (f : World -> C) (m : App A) (k : A -> App B) :
  preserves f m -> (forall a, preserves f (k a)) -> preserves f (bind m k).
Proof.
  intros Hm Hk w. unfold bind. specialize (Hm w).
  destruct (m w) as [[a | e] w']; cbn [snd] in *.
  - rewrite Hk. exact Hm.
  - exact Hm.
Qed.

Lemma preserves_input {B} (f : World -> B) :
  (forall ls w, f (set_stdin ls w) = f w) -> preserves f input.
Proof. intros Hf w. unfold input. destruct (stdin w); [reflexivity | apply Hf]. Qed.

Lemma preserves_print {B} (f : World -> B) (o : Output) :
  (forall out w, f (set_stdout out w) = f w) -> preserves f (print o).
Proof. intros Hf w. apply Hf. Qed.

Lemma preserves_on_vehicle {A B} (f : World -> B) (i : nat) (m : OnVehicle A) :
  (forall vs w, f (set_vehicles vs w) = f w) -> preserves f (on_vehicle i m).
Proof.
  intros Hf w. unfold on_vehicle. destruct (vehicles w !! i) as [v | ]; [ | reflexivity].
  destruct (m v) as [a v']. apply Hf.
Qed.

Lemma preserves_index {A B} (f : World -> B) (l : list A) (k : Z) :
  preserves f (index l k).
Proof. intros w. unfold index. destruct (l !! Z.to_nat k); reflexivity. Qed.

Lemma preserves_pair {A B C} (f : World -> B) (g : World -> C) (m : App A) :
  preserves f m -> preserves g m -> preserves (fun w => (f w, g w)) m.
Proof. intros Hf Hg w. cbn. rewrite Hf, Hg. reflexivity. Qed.

(** The surroundings do not depend on the input, the output or the vehicle
    list. *)
Lemma surroundings_stdin ls w : surroundings (set_stdin ls w) = surroundings w.
Proof. reflexivity. Qed.
Lemma surroundings_stdout out w : surroundings (set_stdout out w) = surroundings w.
Proof. reflexivity. Qed.
Lemma surroundings_vehicles vs w : surroundings (set_vehicles vs w) = surroundings w.
Proof. reflexivity. Qed.

(** Reading the clock is the one thing that tells [surroundings] from
    [standing]. *)
Lemma surroundings_standing (w w' : World) :
  surroundings w' = surroundings w -> standing w' = standing w.
Proof. intros Heq. exact (f_equal fst Heq). Qed.

Lemma standing_fields (w w' : World) :
  standing w' = standing w ->
  saved w' = saved w /\ file_torn w' = file_torn w /\
  write_ok w' = write_ok w /\ writes w' = writes w /\ clock w' = clock w /\
  obd2_mileage w' = obd2_mileage w /\ obd2_battery w' = obd2_battery w.
Proof.
  unfold standing. intros [= Hs Ht Hok Hn Hc Hm Hb _ _]. repeat split; assumption.
Qed.

Lemma surroundings_clock (w w' : World) :
  surroundings w' = surroundings w ->
  clock w' = clock w /\ clock_reads w' = clock_reads w.
Proof.
  intros Heq. split; [ | exact (f_equal snd Heq)].
  apply surroundings_standing, standing_fields in Heq. tauto.
Qed.

Lemma preserves_standing {A} (m : App A) :
  preserves surroundings m -> preserves standing m.
Proof. intros Hm w. apply surroundings_standing. apply Hm. Qed.

(** Nothing stored, nothing written. *)
Lemma untouched_by (w w' : World) :
  vehicles w' = vehicles w -> standing w' = standing w -> untouched w w'.
Proof.
  intros Hv Hs. apply standing_fields in Hs as (Hsaved & Ht & _ & Hn & _).
  repeat split; assumption.
Qed.

Lemma untouched_from (w w1 w' : World) :
  vehicles w1 = vehicles w -> standing w1 = standing w ->
  untouched w1 w' -> untouched w w'.
Proof.
  intros Hv Hs (Hv' & Hs' & Ht' & Hn').
  apply standing_fields in Hs as (Hsaved & Ht & _ & Hn & _).
  repeat split; congruence.
Qed.

Lemma written_from (w w1 w' : World) :
  standing w1 = standing w -> written w1 w' -> written w w'.
Proof.
  intros Hs. apply standing_fields in Hs as (Hsaved & Ht & Hok & Hn & _).
  unfold written. rewrite Hok, Hn, Hsaved, Ht. tauto.
Qed.

Create HintDb stays discriminated.
#[local] Hint Resolve preserves_ret preserves_raise preserves_index : stays.
#[local] Hint Resolve surroundings_stdin surroundings_stdout surroundings_vehicles : stays.
#[local] Hint Extern 1 (preserves _ input) =>
  apply preserves_input; intros; reflexivity : stays.
#[local] Hint Extern 1 (preserves _ (print _)) =>
  apply preserves_print; intros; reflexivity : stays.
#[local] Hint Extern 1 (preserves _ (on_vehicle _ _)) =>
  apply preserves_on_vehicle; intros; reflexivity : stays.
#[local] Hint Extern 1 (preserves _ get_now) => intros ?; reflexivity : stays.

(** Two worlds with the same vehicles and surroundings differ in the unread
    input and the printed lines only. *)
Lemma beyond_io_eq (w w' : World) :
  beyond_io w' = beyond_io w ->
  w' = set_stdout (stdout w') (set_stdin (stdin w') w).
Proof.
  unfold beyond_io, surroundings, standing. destruct w, w'. cbn.
  intros [= -> -> -> -> -> -> -> -> -> -> ->]. reflexivity.
Qed.

Section Prompting.

Context `{!Builtins}.

Lemma stays_ask_choice (n : Z) (lines : list string) :
  preserves surroundings (ask_choice n lines).
Proof.
  induction lines as [ | l rest IH]; cbn [ask_choice]; [auto with stays | ].
  apply preserves_bind; [auto with stays | intros a].
  destruct (int_of a) as [choice | ].
  - destruct ((1 <=? choice) && (choice <=? n)); [auto with stays | ].
    apply preserves_bind; auto with stays.
  - apply preserves_bind; auto with stays.
Qed.

Lemma stays_prompt_choice (n : Z) : preserves surroundings (prompt_choice n).
Proof. intros w. unfold prompt_choice. apply stays_ask_choice. Qed.

Lemma stays_select_vehicle : preserves surroundings select_vehicle.
Proof.
  intros w. unfold select_vehicle. destruct (vehicles w) eqn:E; rewrite <- ?E.
  - reflexivity.
  - apply (preserves_bind surroundings (prompt_choice _)
                          (fun c => ret (Some (Z.to_nat (c - 1)))));
      [apply stays_prompt_choice | auto with stays].
Qed.

(** The selection loop, in full: it turns down every line up to the first
    valid one, with one message each, and returns that line's number; when
    no line is valid it uses up the input and ends with [EOFError]. *)
Lemma ask_choice_spec (n : Z) (lines : list string) (w : World) :
  stdin w = lines ->
  exists rejected : list string,
    Forall (fun l => valid_choice n l = false) rejected /\
    match ask_choice n lines w with
    | (Done choice, w') =>
        exists l, lines = rejected ++ l :: stdin w' /\
                  int_of l = Some choice /\ 1 <= choice <= n /\
                  w' = set_stdout (stdout w ++ (complaint <$> rejected))
                                  (set_stdin (stdin w') w)
    | (Raised e, w') =>
        e = EOFError /\ lines = rejected /\
        w' = set_stdout (stdout w ++ (complaint <$> rejected)) (set_stdin [] w)
    end.
Proof.
  revert w. induction lines as [ | l rest IH]; intros w Hin.
  - exists []. split; [constructor | ]. cbn. repeat split.
    rewrite app_nil_r. destruct w; cbn in *. subst. reflexivity.
  - cbn [ask_choice]. unfold bind at 1, input at 1. rewrite Hin.
    destruct (int_of l) as [choice | ] eqn:Hint.
    + destruct ((1 <=? choice) && (choice <=? n)) eqn:Hrange.
      * exists []. split; [constructor | ]. cbn. exists l.
        apply andb_true_iff in Hrange as [H1 H2].
        repeat split; try lia; try assumption.
        rewrite app_nil_r. destruct w; reflexivity.
      * unfold bind at 1, print at 1.
        match goal with
        | |- context [ask_choice n rest ?w1] =>
            destruct (IH w1 eq_refl) as (rejected & Hrej & Hrun);
            destruct (ask_choice n rest w1) as [[c | e] w'] eqn:Hloop
        end.
        -- destruct Hrun as (l' & Hl' & Hc & Hr & Hw').
           exists (l :: rejected). split.
           { constructor; [unfold valid_choice; rewrite Hint; exact Hrange | exact Hrej]. }
           exists l'. repeat split; try assumption; try lia.
           ++ rewrite Hl'. reflexivity.
           ++ rewrite Hw' at 1. cbn. unfold complaint at 2. rewrite Hint.
              rewrite <- app_assoc. destruct w; reflexivity.
        -- destruct Hrun as (-> & Hl' & Hw').
           exists (l :: rejected). split.
           { constructor; [unfold valid_choice; rewrite Hint; exact Hrange | exact Hrej]. }
           repeat split; [rewrite Hl'; reflexivity | ].
           rewrite Hw'. cbn. unfold complaint at 2. rewrite Hint.
           rewrite <- app_assoc. destruct w; reflexivity.
    + unfold bind at 1, print at 1.
      match goal with
      | |- context [ask_choice n rest ?w1] =>
          destruct (IH w1 eq_refl) as (rejected & Hrej & Hrun);
          destruct (ask_choice n rest w1) as [[c | e] w'] eqn:Hloop
      end.
      * destruct Hrun as (l' & Hl' & Hc & Hr & Hw').
        exists (l :: rejected). split.
        { constructor; [unfold valid_choice; rewrite Hint; reflexivity | exact Hrej]. }
        exists l'. repeat split; try assumption; try lia.
        -- rewrite Hl'. reflexivity.
        -- rewrite Hw' at 1. cbn. unfold complaint at 2. rewrite Hint.
           rewrite <- app_assoc. destruct w; reflexivity.
      * destruct Hrun as (-> & Hl' & Hw').
        exists (l :: rejected). split.
        { constructor; [unfold valid_choice; rewrite Hint; reflexivity | exact Hrej]. }
        repeat split; [rewrite Hl'; reflexivity | ].
        rewrite Hw'. cbn. unfold complaint at 2. rewrite Hint.
        rewrite <- app_assoc. destruct w; reflexivity.
Qed.

(** X6: the numbered prompt returns the number on the first line that parses
    to an integer between 1 and [n]; every line before it is used up and
    answered with one message ("Invalid selection." for a number out of
    range, "Please enter a valid number." otherwise), and nothing else in the
    world changes. When no line is valid the whole input is used up, each
    line is answered, and the prompt ends with [EOFError]. *)
Theorem prompt_choice_spec (n : Z) (w : World) :
  exists rejected : list string,
    Forall (fun l => valid_choice n l = false) rejected /\
    match prompt_choice n w with
    | (Done choice, w') =>
        exists l, stdin w = rejected ++ l :: stdin w' /\
                  int_of l = Some choice /\ 1 <= choice <= n /\
                  w' = set_stdout (stdout w ++ (complaint <$> rejected))
                                  (set_stdin (stdin w') w)
    | (Raised e, w') =>
        e = EOFError /\ stdin w = rejected /\
        w' = set_stdout (stdout w ++ (complaint <$> rejected)) (set_stdin [] w)
    end.
Proof. unfold prompt_choice. apply ask_choice_spec. reflexivity. Qed.

Lemma prompt_choice_in_range (n : Z) (w w' : World) (choice : Z) :
  prompt_choice n w = (Done choice, w') -> 1 <= choice <= n.
Proof.
  intros Hrun. destruct (ask_choice_spec n (stdin w) w eq_refl) as (rej & _ & Hspec).
  unfold prompt_choice in Hrun. rewrite Hrun in Hspec.
  destruct Hspec as (l & _ & _ & Hr & _). exact Hr.
Qed.

Lemma select_vehicle_in_range (w w1 : World) (i : nat) :
  select_vehicle w = (Done (Some i), w1) -> exists v, vehicles w1 !! i = Some v.
Proof.
  intros Hsel.
  assert (Hkeep : vehicles w1 = vehicles w).
  { pose proof (keeps_select_vehicle w) as Hk. rewrite Hsel in Hk. exact Hk. }
  unfold select_vehicle in Hsel.
  destruct (vehicles w) as [ | v0 vs] eqn:Hvs; [discriminate | ]. rewrite <- Hvs in Hsel.
  apply bind_done in Hsel as (choice & w2 & Hchoice & Hret).
  apply prompt_choice_in_range in Hchoice.
  injection Hret as Hi _. rewrite Hkeep.
  apply lookup_lt_is_Some_2. rewrite ?Hvs in *. lia.
Qed.

(** X7: [select_vehicle] with an empty list prints "No vehicles found" and
    returns nothing without reading a line; otherwise it returns a position
    inside the list, the one whose number (counting from 1) was typed, or
    ends with [EOFError] when the input runs out. It never changes the
    vehicles, the file or the collaborators. *)
Theorem select_vehicle_spec (w : World) :
  beyond_io (select_vehicle w).2 = beyond_io w /\
  match select_vehicle w with
  | (Done None, w') =>
      vehicles w = [] /\ stdin w' = stdin w /\
      stdout w' = stdout w ++ [Say "No vehicles found. Please add a vehicle first."]
  | (Done (Some i), w') =>
      (i < length (vehicles w))%nat /\
      exists rejected l, stdin w = rejected ++ l :: stdin w' /\
                         int_of l = Some (Z.of_nat i + 1)
  | (Raised e, w') => e = EOFError /\ vehicles w <> [] /\ stdin w' = []
  end.
Proof.
  split.
  { unfold beyond_io. rewrite (keeps_select_vehicle w), (stays_select_vehicle w).
    reflexivity. }
  destruct (select_vehicle w) as [[[i | ] | e] w'] eqn:Hsel.
  - destruct (select_vehicle_in_range w w' i Hsel) as [v Hv].
    assert (Hkeep : vehicles w' = vehicles w).
    { pose proof (keeps_select_vehicle w) as Hk. rewrite Hsel in Hk. exact Hk. }
    rewrite Hkeep in Hv. split; [eapply lookup_lt_Some; exact Hv | ].
    unfold select_vehicle in Hsel.
    destruct (vehicles w) as [ | v0 vs] eqn:Hvs; [discriminate | ]. rewrite <- Hvs in Hsel.
    apply bind_done in Hsel as (choice & w2 & Hchoice & Hret).
    injection Hret as Hi <-.
    destruct (ask_choice_spec (Z.of_nat (length (vehicles w))) (stdin w) w eq_refl)
      as (rejected & _ & Hrun).
    unfold prompt_choice in Hchoice. rewrite Hchoice in Hrun. destruct Hrun as (l & Hl & Hint & Hr & _).
    exists rejected, l. split; [exact Hl | ]. rewrite Hint. f_equal. lia.
  - unfold select_vehicle in Hsel.
    destruct (vehicles w) as [ | v0 vs] eqn:Hvs.
    + injection Hsel as <-. repeat split.
    + rewrite <- Hvs in Hsel. apply bind_done in Hsel as (? & ? & _ & Hret).
      discriminate.
  - unfold select_vehicle in Hsel.
    destruct (vehicles w) as [ | v0 vs] eqn:Hvs; [discriminate | ].
    rewrite <- Hvs in Hsel. unfold bind in Hsel.
    destruct (ask_choice_spec (Z.of_nat (length (vehicles w))) (stdin w) w eq_refl)
      as (rejected & _ & Hrun).
    unfold prompt_choice in Hsel.
    destruct (ask_choice (Z.of_nat (length (vehicles w))) (stdin w) w) as [[c | e'] w2];
      [discriminate | ].
    injection Hsel as <- <-. destruct Hrun as (-> & _ & ->).
    repeat split. discriminate.
Qed.

(** ** Updating the mileage *)

Lemma stays_ask_new_mileage (i : nat) (lines : list string) :
  preserves surroundings (ask_new_mileage i lines).
Proof.
  induction lines as [ | l rest IH]; cbn [ask_new_mileage]; [auto with stays | ].
  apply preserves_bind; [auto with stays | intros a].
  destruct (int_of a) as [new_mileage | ].
  - apply preserves_bind; [auto with stays | intros current].
    destruct (current <=? new_mileage); [auto with stays | ].
    apply preserves_bind; auto with stays.
  - apply preserves_bind; auto with stays.
Qed.

(** The manual loop either stores a reading that is not below the odometer
    or, when the input runs out first, stores nothing. *)
Lemma ask_new_mileage_spec (i : nat) (v : Vehicle) (lines : list string) (w : World) :
  vehicles w !! i = Some v ->
  match ask_new_mileage i lines w with
  | (Done _, w') =>
      exists m, mileage v <= m /\ vehicles w' = <[i := set_mileage m v]> (vehicles w)
  | (Raised e, w') => vehicles w' = vehicles w
  end.
Proof.
  revert w. induction lines as [ | l rest IH]; intros w Hi; [reflexivity | ].
  cbn [ask_new_mileage]. unfold bind at 1. unfold input at 1.
  destruct (stdin w) as [ | typed later]; [reflexivity | ].
  destruct (int_of typed) as [new_mileage | ].
  - unfold bind at 1.
    rewrite (on_vehicle_getattr i mileage _ v) by exact Hi.
    destruct (Z.leb_spec (mileage v) new_mileage) as [Hle | Hlt].
    + rewrite (on_vehicle_setattr i _ _ v) by exact Hi.
      exists new_mileage. split; [exact Hle | reflexivity].
    + unfold bind at 1, print at 1.
      match goal with
      | |- context [ask_new_mileage i rest ?w1] => exact (IH w1 Hi)
      end.
  - unfold bind at 1, print at 1.
    match goal with
    | |- context [ask_new_mileage i rest ?w1] => exact (IH w1 Hi)
    end.
Qed.

Lemma keeps_report_update (i : nat) : keeps_vehicles (report_update i).
Proof.
  unfold report_update.
  repeat (apply keeps_bind; [auto with keeps | intros ?]); auto with keeps.
  - apply keeps_on_vehicle. reflexivity.
  - apply keeps_on_vehicle. reflexivity.
  - destruct (PrimFloat.ltb _ _); auto with keeps.
Qed.

(** The report starts by writing the file. *)
Lemma report_update_written (i : nat) (w0 w : World) (v : Vehicle) :
  vehicles w !! i = Some v ->
  standing w = standing w0 ->
  written w0 (report_update i w).2.
Proof.
  intros Hi Hst. apply standing_fields in Hst as (Hs & Ht & Hok & Hn & _).
  unfold written. rewrite <- Hok, <- Hn, <- Hs, <- Ht.
  pose proof (report_update_stdout w i v Hi) as Hout.
  pose proof (keeps_report_update i w) as Hkeep.
  assert (Hfile : writes (report_update i w).2 = S (writes w) /\
                  saved (report_update i w).2
                  = match write_ok w (writes w) with
                    | Written => vehicles w
                    | _ => saved w
                    end /\
                  file_torn (report_update i w).2
                  = match write_ok w (writes w) with
                    | Written => false
                    | OpenFailed => file_torn w
                    | DumpFailed => true
                    end).
  { set (P := fun w' : World =>
                writes w' = S (writes w) /\
                saved w' = match write_ok w (writes w) with
                           | Written => vehicles w
                           | _ => saved w
                           end /\
                file_torn w' = match write_ok w (writes w) with
                               | Written => false
                               | OpenFailed => file_torn w
                               | DumpFailed => true
                               end).
    change (P (report_update i w).2).
    unfold report_update. unfold bind at 1, save_vehicles at 1.
    destruct (write_ok w (writes w));
      match goal with
      | |- P (?k ?w1).2 =>
          assert (Hk : preserves (fun x => (writes x, saved x, file_torn x)) k);
          [ | pose proof (Hk w1) as [= Hk1 Hk2 Hk3]; unfold P;
              rewrite Hk1, Hk2, Hk3; repeat split; reflexivity ]
      end.
    all: repeat (apply preserves_bind; [auto with stays | intros ?]); auto with stays.
    all: match goal with
         | |- preserves _ (if ?b then _ else _) => destruct b; auto with stays
         end. }
  destruct Hfile as (Hwrites & Hsaved & Htorn). split; [exact Hwrites | ].
  rewrite Hsaved, Htorn, Hkeep, Hout.
  destruct (write_ok w (writes w)); repeat split;
    apply elem_of_app; right; apply list_elem_of_here.
Qed.

Lemma surroundings_saved (w w' : World) :
  surroundings w' = surroundings w ->
  saved w' = saved w /\ obd2_mileage w' = obd2_mileage w /\
  obd2_battery w' = obd2_battery w /\ now w' = now w.
Proof.
  intros Heq. destruct (surroundings_clock _ _ Heq) as [Hc Hr].
  apply surroundings_standing, standing_fields in Heq
    as (Hs & _ & _ & _ & _ & Hm & Hb).
  unfold now. rewrite Hc, Hr. repeat split; assumption.
Qed.

(** The three ways a run of [update_mileage] can end, as far as the vehicles
    and the file go: nothing stored; a typed reading, not below the odometer,
    stored and the file written; the reader's mileage and voltage stored and
    the file written. *)
Lemma update_mileage_cases (w : World) : update_outcome w (update_mileage w).2.
Proof.
  unfold update_mileage. unfold bind at 1.
  pose proof (keeps_select_vehicle w) as Hkv.
  pose proof (stays_select_vehicle w) as Hks.
  destruct (select_vehicle w) as [[[i | ] | e] w1] eqn:Hsel; cbn [snd] in Hkv, Hks;
    pose proof (surroundings_standing _ _ Hks) as Hst;
    apply surroundings_saved in Hks as (Hsaved & Hom & Hob & _).
  2, 3: left; apply untouched_by; assumption.
  destruct (select_vehicle_in_range w w1 i Hsel) as [v Hv].
  unfold bind at 1. rewrite (on_vehicle_getattr i mileage w1 v Hv).
  unfold bind at 1, print at 1. unfold bind at 1, input at 1.
  cbn [stdin set_stdout].
  destruct (stdin w1) as [ | answer rest]; [left; apply untouched_by; assumption | ].
  destruct (is_y answer).
  - unfold bind at 1, obd2_get_mileage at 1.
    unfold bind at 1, obd2_get_battery_voltage at 1.
    unfold bind at 1, print at 1. unfold bind at 1, input at 1.
    cbn [stdin set_stdin set_stdout obd2_mileage obd2_battery].
    destruct rest as [ | confirm rest']; [left; apply untouched_by; assumption | ].
    destruct (is_y confirm); [ | left; apply untouched_by; assumption].
    unfold bind at 1. rewrite (on_vehicle_setattr i _ _ v) by exact Hv.
    unfold bind at 1.
    rewrite (on_vehicle_setattr i _ _ (set_mileage (obd2_mileage w1) v))
      by (apply list_lookup_insert_eq; eapply lookup_lt_Some; exact Hv).
    right; right. exists i, v. rewrite <- Hkv. split; [exact Hv | ]. split.
    + rewrite (keeps_report_update i).
      cbn [vehicles set_vehicles set_stdin set_stdout].
      rewrite list_insert_insert_eq, Hom, Hob. reflexivity.
    + eapply report_update_written; [ | exact Hst].
      cbn [vehicles set_vehicles set_stdin set_stdout].
      apply list_lookup_insert_eq. rewrite length_insert.
      eapply lookup_lt_Some. exact Hv.
  - unfold bind at 1.
    match goal with
    | |- context [ask_new_mileage i (stdin ?w4) ?w4] =>
        pose proof (ask_new_mileage_spec i v (stdin w4) w4 Hv) as Hloop;
        pose proof (stays_ask_new_mileage i (stdin w4) w4) as Hstay;
        destruct (ask_new_mileage i (stdin w4) w4) as [[[] | e] w5]
    end; cbn [snd] in Hstay; apply surroundings_standing in Hstay.
    + destruct Hloop as (m & Hm & Hv5). right; left. exists i, v, m.
      rewrite <- Hkv. split; [exact Hv | split; [exact Hm | ]]. split.
      * rewrite (keeps_report_update i). exact Hv5.
      * eapply (report_update_written i w w5); [ | rewrite Hstay; exact Hst].
        rewrite Hv5. apply list_lookup_insert_eq. eapply lookup_lt_Some. exact Hv.
    + left. cbn [snd].
      apply untouched_by; [rewrite Hloop; exact Hkv | rewrite Hstay; exact Hst].
Qed.

(** X8: a run of [update_mileage], whatever is typed, leaves every vehicle
    in its place and changes nothing in it but the mileage and the battery
    voltage: the history and the three last-service readings stay. The new
    mileage is either not below the old one, with the old voltage, or it is
    the mileage the OBD2 reader showed, together with the reader's voltage. *)
Theorem update_mileage_frame (w : World) (k : nat) (v : Vehicle) :
  vehicles w !! k = Some v ->
  exists v' : Vehicle,
    vehicles (update_mileage w).2 !! k = Some v' /\
    set_battery_voltage (battery_voltage v) (set_mileage (mileage v) v') = v /\
    ((mileage v <= mileage v' /\ battery_voltage v' = battery_voltage v) \/
     (mileage v' = obd2_mileage w /\ battery_voltage v' = obd2_battery w)).
Proof.
  intros Hk.
  destruct (update_mileage_cases w)
    as [[Hsame _] | [(i & vi & m & Hi & Hm & Hv & _) | (i & vi & Hi & Hv & _)]].
  - exists v. rewrite Hsame. split; [exact Hk | ].
    split; [destruct v; reflexivity | left; split; [lia | reflexivity]].
  - rewrite Hv. destruct (decide (k = i)) as [-> | Hne].
    + rewrite Hk in Hi. injection Hi as <-. exists (set_mileage m v).
      split; [apply list_lookup_insert_eq; eapply lookup_lt_Some; exact Hk | ].
      split; [destruct v; reflexivity | left; split; [exact Hm | reflexivity]].
    + exists v. rewrite list_lookup_insert_ne by congruence. split; [exact Hk | ].
      split; [destruct v; reflexivity | left; split; [lia | reflexivity]].
  - rewrite Hv. destruct (decide (k = i)) as [-> | Hne].
    + rewrite Hk in Hi. injection Hi as <-.
      exists (set_battery_voltage (obd2_battery w) (set_mileage (obd2_mileage w) v)).
      split; [apply list_lookup_insert_eq; eapply lookup_lt_Some; exact Hk | ].
      split; [destruct v; reflexivity | right; split; reflexivity].
    + exists v. rewrite list_lookup_insert_ne by congruence. split; [exact Hk | ].
      split; [destruct v; reflexivity | left; split; [lia | reflexivity]].
Qed.

(** X9: [update_mileage] tries to save every change. Either nothing is stored
    and no write of the file is attempted, or the file is written once after
    the reading is stored: when the write goes through, the file holds the
    vehicle list as the run left it; when it fails, the change is in memory
    only and "Error saving vehicles" is printed, with the file as it was if
    [open] failed and torn if [json.dump] failed. *)
Theorem update_mileage_saves (w : World) :
  untouched w (update_mileage w).2 \/ written w (update_mileage w).2.
Proof.
  destruct (update_mileage_cases w)
    as [Hsame | [(i & vi & m & _ & _ & _ & Hs) | (i & vi & _ & _ & Hs)]].
  - left. exact Hsame.
  - right. exact Hs.
  - right. exact Hs.
Qed.

(** X10: with a reader that shows no less than any odometer in the list, a
    run of [update_mileage] lowers no mileage, keeps the last-service
    readings behind the odometer wherever they were, and drops no item from
    what the evaluator lists: each item is still there, with no more miles
    left and a status at least as urgent. *)
Theorem update_mileage_monotone (w : World) (k : nat) (v : Vehicle) :
  (forall u, u ∈ vehicles w -> mileage u <= obd2_mileage w) ->
  vehicles w !! k = Some v ->
  exists v' : Vehicle,
    vehicles (update_mileage w).2 !! k = Some v' /\
    mileage v <= mileage v' /\
    (readings_behind v -> readings_behind v') /\
    forall it : Item, it ∈ due_items v ->
      exists it' : Item,
        it' ∈ due_items v' /\ item_name it' = item_name it /\
        item_miles it' <= item_miles it /\
        urgency (item_status it) <= urgency (item_status it').
Proof.
  intros Hreader Hk.
  assert (Hgrow : forall m, mileage v <= m ->
            mileage v <= mileage (set_mileage m v) /\
            (readings_behind v -> readings_behind (set_mileage m v)) /\
            forall it : Item, it ∈ due_items v ->
              exists it' : Item,
                it' ∈ due_items (set_mileage m v) /\ item_name it' = item_name it /\
                item_miles it' <= item_miles it /\
                urgency (item_status it) <= urgency (item_status it')).
  { intros m Hm. split; [exact Hm | split].
    - apply set_mileage_keeps_readings. exact Hm.
    - intros it Hit. apply due_items_later; assumption. }
  assert (Hstay : mileage v <= mileage v /\
            (readings_behind v -> readings_behind v) /\
            forall it : Item, it ∈ due_items v ->
              exists it' : Item,
                it' ∈ due_items v /\ item_name it' = item_name it /\
                item_miles it' <= item_miles it /\
                urgency (item_status it) <= urgency (item_status it')).
  { split; [lia | split; [tauto | ]]. intros it Hit. exists it. repeat split; try lia.
    exact Hit. }
  destruct (update_mileage_cases w)
    as [[Hsame _] | [(i & vi & m & Hi & Hm & Hv & _) | (i & vi & Hi & Hv & _)]].
  - exists v. rewrite Hsame. split; [exact Hk | exact Hstay].
  - rewrite Hv. destruct (decide (k = i)) as [-> | Hne].
    + rewrite Hk in Hi. injection Hi as <-. exists (set_mileage m v).
      split; [apply list_lookup_insert_eq; eapply lookup_lt_Some; exact Hk | ].
      apply Hgrow. exact Hm.
    + exists v. rewrite list_lookup_insert_ne by congruence.
      split; [exact Hk | exact Hstay].
  - rewrite Hv. destruct (decide (k = i)) as [-> | Hne].
    + rewrite Hk in Hi. injection Hi as <-.
      exists (set_battery_voltage (obd2_battery w) (set_mileage (obd2_mileage w) v)).
      split; [apply list_lookup_insert_eq; eapply lookup_lt_Some; exact Hk | ].
      apply (Hgrow (obd2_mileage w)). apply Hreader.
      apply list_elem_of_lookup. eexists. exact Hk.
    + exists v. rewrite list_lookup_insert_ne by congruence.
      split; [exact Hk | exact Hstay].
Qed.

(** ** Scheduling *)

Lemma stays_evaluator (i : nat) :
  preserves surroundings (on_vehicle i check_maintenance_due).
Proof. auto with stays. Qed.

Lemma stays_candidate_dates : preserves standing candidate_dates.
Proof. intros w. rewrite candidate_dates_spec. reflexivity. Qed.

Lemma stays_select_service_and_date : preserves standing select_service_and_date.
Proof.
  unfold select_service_and_date.
  apply preserves_bind; [apply preserves_standing, stays_select_vehicle | intros [i | ]];
    [ | auto with stays].
  apply preserves_bind; [auto with stays | intros due].
  destruct due as [ | it due'].
  - repeat (apply preserves_bind; [auto with stays | intros ?]); auto with stays.
  - apply preserves_bind; [apply preserves_standing, stays_prompt_choice | intros ?].
    apply preserves_bind; [auto with stays | intros ?].
    apply preserves_bind; [apply stays_candidate_dates | intros ?].
    apply preserves_bind; [apply preserves_standing, stays_prompt_choice | intros ?].
    apply preserves_bind; [auto with stays | intros ?]. auto with stays.
Qed.

Lemma record_appointment_cases (w : World) (i : nat) (service : string)
      (date : datetime) :
  untouched w (record_appointment i service date w).2 \/
  (exists v,
     vehicles w !! i = Some v /\
     vehicles (record_appointment i service date w).2
     = <[i := history_append (mk_entry service date (mileage v) "scheduled") v]>
         (vehicles w) /\
     written w (record_appointment i service date w).2).
Proof.
  set (P := fun w' : World =>
    untouched w w' \/
    (exists v,
       vehicles w !! i = Some v /\
       vehicles w'
       = <[i := history_append (mk_entry service date (mileage v) "scheduled") v]>
           (vehicles w) /\
       written w w')).
  change (P (record_appointment i service date w).2).
  unfold record_appointment, bind, calendar_create_event.
  unfold print at 1. unfold input at 1. cbn [stdin set_stdout].
  destruct (stdin w) as [ | answer rest]; [left; repeat split; reflexivity | ].
  destruct (vehicles w !! i) as [v | ] eqn:Hi.
  - destruct (is_y answer).
    + unfold input at 1. cbn [stdin set_stdin].
      destruct rest as [ | address rest']; [left; repeat split; reflexivity | ].
      unfold email_send_email. cbn [email_ok set_stdin set_stdout].
      destruct (email_ok w); unfold print at 1; cbn beta iota;
        rewrite (on_vehicle_getattr i mileage _ v) by exact Hi;
        rewrite (on_vehicle_setattr i _ _ v) by exact Hi;
        unfold save_vehicles, input, ret; cbn;
        destruct (write_ok w (writes w)) eqn:Hok; cbn; destruct rest'; cbn;
        right; exists v; unfold written; rewrite Hok;
        repeat split; try reflexivity; set_solver.
    + unfold ret at 1.
      rewrite (on_vehicle_getattr i mileage _ v) by exact Hi.
      rewrite (on_vehicle_setattr i _ _ v) by exact Hi.
      unfold save_vehicles, input, ret; cbn;
        destruct (write_ok w (writes w)) eqn:Hok; cbn; destruct rest; cbn;
        right; exists v; unfold written; rewrite Hok;
        repeat split; try reflexivity; set_solver.
  - destruct (is_y answer).
    + unfold input at 1. cbn [stdin set_stdin].
      destruct rest as [ | address rest']; [left; repeat split; reflexivity | ].
      unfold email_send_email. cbn [email_ok set_stdin set_stdout].
      destruct (email_ok w); unfold print at 1; cbn beta iota;
        unfold on_vehicle at 1; cbn [vehicles set_stdin set_stdout];
        rewrite Hi; left; repeat split; reflexivity.
    + unfold ret at 1. unfold on_vehicle at 1. cbn [vehicles set_stdin set_stdout].
      rewrite Hi. left; repeat split; reflexivity.
Qed.

Lemma schedule_service_cases (w : World) : schedule_outcome w (schedule_service w).2.
Proof.
  unfold schedule_service. unfold bind at 1.
  pose proof (keeps_select_service_and_date w) as Hkv.
  pose proof (stays_select_service_and_date w) as Hks.
  destruct (select_service_and_date w) as [[[[[i service] date] | ] | e] w1];
    cbn [snd] in Hkv, Hks.
  2, 3: left; apply untouched_by; assumption.
  destruct (record_appointment_cases w1 i service date) as [Hu | (v & Hi & Hv & Hw)].
  - left. exact (untouched_from w w1 _ Hkv Hks Hu).
  - right. exists i, v, service, date. rewrite <- Hkv.
    split; [exact Hi | split; [exact Hv | ]]. exact (written_from w w1 _ Hks Hw).
Qed.

(** The evaluator looks at the odometer and the three readings only. *)
Lemma due_items_history (e : HistoryEntry) (v : Vehicle) :
  due_items (history_append e v) = due_items v.
Proof. reflexivity. Qed.

(** X11: scheduling a service resets nothing. After a run of
    [schedule_service] every vehicle is either as it was or has one more
    history record, with status "scheduled" and its own mileage; the odometer
    and the last-service readings are untouched, so the evaluator lists for
    it exactly what it listed before: the scheduled service stays due. *)
Theorem schedule_service_resets_nothing (w : World) (k : nat) (v : Vehicle) :
  vehicles w !! k = Some v ->
  exists v' : Vehicle,
    vehicles (schedule_service w).2 !! k = Some v' /\
    (v' = v \/
     exists e, v' = history_append e v /\ h_status e = "scheduled" /\
               h_mileage e = mileage v) /\
    due_items v' = due_items v.
Proof.
  intros Hk.
  destruct (schedule_service_cases w)
    as [[Hsame _] | (i & vi & service & date & Hi & Hv & _)].
  - exists v. rewrite Hsame. split; [exact Hk | split; [left | ]; reflexivity].
  - rewrite Hv. destruct (decide (k = i)) as [-> | Hne].
    + rewrite Hk in Hi. injection Hi as <-.
      exists (history_append (mk_entry service date (mileage v) "scheduled") v).
      split; [apply list_lookup_insert_eq; eapply lookup_lt_Some; exact Hk | ].
      split; [right; eexists; repeat split | apply due_items_history].
    + exists v. rewrite list_lookup_insert_ne by congruence.
      split; [exact Hk | split; [left | ]; reflexivity].
Qed.

(** X13: [schedule_service] tries to save every record it appends. Either
    nothing is appended and no write of the file is attempted, or the file is
    written once after the record is appended: when the write goes through,
    the file holds the vehicle list with the new record; when it fails, the
    record is in memory only and "Error saving vehicles" is printed, with the
    file as it was if [open] failed and torn if [json.dump] failed. *)
Theorem schedule_service_saves (w : World) :
  untouched w (schedule_service w).2 \/ written w (schedule_service w).2.
Proof.
  destruct (schedule_service_cases w) as [Hsame | (i & v & s & d & _ & _ & Hs)].
  - left. exact Hsame.
  - right. exact Hs.
Qed.

Lemma index_done {A} (l : list A) (k : Z) (w w' : World) (x : A) :
  index l k w = (Done x, w') -> x ∈ l /\ w' = w.
Proof.
  unfold index. destruct (l !! Z.to_nat k) as [y | ] eqn:Hy; [ | discriminate].
  intros [= <- <-]. split; [ | reflexivity].
  apply list_elem_of_lookup. eexists. exact Hy.
Qed.

(** X12: when [schedule_service] has a service and a date in hand, the
    service is one that the evaluator lists for the selected vehicle, and the
    date is one of those the date loop kept: a weekday, [k + 1] days after
    the reading of the clock that round [k] of the loop took (the loop is the
    first to read the clock in the run). *)
Theorem selection_is_due_and_offered (w w1 : World) (i : nat) (service : string)
        (date : datetime) :
  select_service_and_date w = (Done (Some (i, service, date)), w1) ->
  exists v it,
    vehicles w !! i = Some v /\
    it ∈ due_items v /\ item_name it = service /\
    date ∈ offered (readings w 7) (seqZ 1 7) /\
    weekday date < 5 /\
    exists k : nat, (k < 7)%nat /\
      date = plus_days (clock w (clock_reads w + k)%nat) (Z.of_nat k + 1).
Proof.
  unfold select_service_and_date. intros Hrun.
  apply bind_done in Hrun as ([j | ] & w2 & Hsel & Hrun); [ | discriminate].
  pose proof (keeps_select_vehicle w) as Hkv. rewrite Hsel in Hkv. cbn [snd] in Hkv.
  pose proof (stays_select_vehicle w) as Hks. rewrite Hsel in Hks. cbn [snd] in Hks.
  apply surroundings_clock in Hks as (Hclock2 & Hreads2).
  destruct (select_vehicle_in_range w w2 j Hsel) as [v Hv].
  apply bind_done in Hrun as (due & w3 & Hdue & Hrun).
  rewrite (on_vehicle_read j check_maintenance_due w2 v Hv eq_refl) in Hdue.
  change (check_maintenance_due v).1 with (due_items v) in Hdue.
  assert (Hd : due = due_items v) by congruence.
  assert (Hw3 : w3 = w2) by congruence.
  clear Hdue. subst due w3.
  destruct (due_items v) as [ | it0 due'] eqn:Hlist.
  { apply bind_done in Hrun as (? & ? & _ & Hrun).
    apply bind_done in Hrun as (? & ? & _ & Hrun). discriminate. }
  apply bind_done in Hrun as (choice & w4 & Hc & Hrun).
  match type of Hc with
  | prompt_choice ?n _ = _ => pose proof (stays_prompt_choice n w2) as Hs4
  end.
  rewrite Hc in Hs4. cbn [snd] in Hs4.
  apply surroundings_clock in Hs4 as (Hclock4 & Hreads4).
  apply bind_done in Hrun as (picked & w5 & Hpick & Hrun).
  apply index_done in Hpick as [Hpicked ->].
  apply bind_done in Hrun as (dates & w6 & Hdates & Hrun).
  rewrite candidate_dates_spec in Hdates. injection Hdates as <- <-.
  apply bind_done in Hrun as (choice' & w7 & Hc' & Hrun).
  apply bind_done in Hrun as (chosen & w8 & Hchosen & Hrun).
  apply index_done in Hchosen as [Hchosen ->].
  injection Hrun as <- <- <- _.
  assert (Hsame : readings w4 7 = readings w 7).
  { unfold readings. rewrite Hclock4, Hreads4, Hclock2, Hreads2. reflexivity. }
  rewrite Hsame in Hchosen.
  exists v, picked. rewrite <- Hkv. split; [exact Hv | ].
  split; [rewrite Hlist; exact Hpicked | ].
  split; [reflexivity | ]. split; [exact Hchosen | ].
  pose proof (offered_weekdays w) as Hall.
  rewrite Forall_forall in Hall. exact (Hall chosen Hchosen).
Qed.

End Prompting.

Lemma update_mileage_frame_witness :
  exists v', vehicles (update_mileage (new_car_garage ["1"; "n"; "50250"; ""])).2 !! 0%nat
             = Some v' /\ last_oil_change v' = 47000.
Proof.
  destruct (update_mileage_frame (new_car_garage ["1"; "n"; "50250"; ""]) 0
                                 (sample 50000 47000 46000 35000) eq_refl)
    as (v' & Hv' & Hsame & _).
  exists v'. split; [exact Hv' | ].
  change 47000 with (last_oil_change (sample 50000 47000 46000 35000)).
  rewrite <- Hsame. reflexivity.
Defined.

Lemma update_mileage_monotone_witness :
  exists v', vehicles (update_mileage
                         (set_stdin ["1"; "y"; "y"; ""]
                            (mk_world [sample 900 0 0 0] [] [] []
                               false wednesday_clock 0 1000 12.1%float "id" true
                               (fun _ => Written) 0))).2
               !! 0%nat = Some v' /\ 900 <= mileage v'.
Proof.
  destruct (update_mileage_monotone
              (set_stdin ["1"; "y"; "y"; ""]
                 (mk_world [sample 900 0 0 0] [] [] []
                    false wednesday_clock 0 1000 12.1%float "id" true
                    (fun _ => Written) 0))
              0 (sample 900 0 0 0)) as (v' & Hv' & Hm & _).
  - intros u Hu. apply list_elem_of_singleton in Hu. subst u. cbn. lia.
  - reflexivity.
  - exists v'. split; [exact Hv' | exact Hm].
Defined.

Lemma schedule_service_resets_nothing_witness :
  exists v', vehicles (schedule_service (garage ["1"; "1"; "2"; "n"; ""])).2 !! 0%nat
             = Some v' /\
             due_items v' = [("Air Filter", 500, "UPCOMING")].
Proof.
  destruct (schedule_service_resets_nothing (garage ["1"; "1"; "2"; "n"; ""]) 0
              (sample 50000 47000 46000 20500) eq_refl) as (v' & Hv' & _ & Hdue).
  exists v'. split; [exact Hv' | ]. rewrite Hdue. vm_compute. reflexivity.
Defined.

Lemma selection_is_due_and_offered_witness :
  let w := garage ["1"; "1"; "2"] in
  exists v it, vehicles w !! 0%nat = Some v /\ it ∈ due_items v /\
               item_name it = "Air Filter" /\
               weekday (mk_datetime 739002 1) < 5.
Proof.
  intros w.
  destruct (selection_is_due_and_offered w (select_service_and_date w).2 0
              "Air Filter" (mk_datetime 739002 1))
    as (v & it & Hv & Hit & Hname & _ & Hwd & _).
  - vm_compute. reflexivity.
  - exists v, it. repeat split; assumption.
Defined.

(** A write that fails at [open] leaves the reading in memory and out of the
    file, and is reported. *)
Example failed_save_is_reported :
  let w := (update_mileage
              (with_writes OpenFailed (garage ["1"; "n"; "50250"; ""]))).2 in
  mileage <$> vehicles w = [50250] /\
  saved w = [] /\
  stdout w = [CurrentMileage 50000; SaveFailed; MileageUpdated 50250].
Proof. vm_compute. repeat split; reflexivity. Qed.

(** ** Persistence *)

Lemma to_dict_lookups (v : Vehicle) :
  to_dict v !! "make" = Some (PStr (make v)) /\
  to_dict v !! "model" = Some (PStr (model v)) /\
  to_dict v !! "year" = Some (PInt (year v)) /\
  to_dict v !! "mileage" = Some (PInt (mileage v)) /\
  to_dict v !! "vin" = Some (PStr (vin v)) /\
  to_dict v !! "battery_voltage" = Some (PFloat (battery_voltage v)) /\
  to_dict v !! "maintenance_history" = Some (PHistory (maintenance_history v)) /\
  to_dict v !! "last_oil_change" = Some (PInt (last_oil_change v)) /\
  to_dict v !! "last_tire_rotation" = Some (PInt (last_tire_rotation v)) /\
  to_dict v !! "last_air_filter" = Some (PInt (last_air_filter v)).
Proof. unfold to_dict. cbn [list_to_map foldr]. repeat split; by simplify_map_eq. Qed.

Lemma from_dict_to_dict (r : Draws) (v : Vehicle) :
  vin v <> "" -> from_dict r (to_dict v) = Built v.
Proof.
  intros Hvin.
  destruct (to_dict_lookups v)
    as (Hmake & Hmodel & Hyear & Hmileage & Hv & Hb & Hh & Ho & Ht & Ha).
  unfold from_dict, get_int.
  rewrite Hmake, Hmodel, Hyear, Hmileage, Hv, Hb, Hh, Ho, Ht, Ha.
  cbn [truthy]. rewrite bool_decide_eq_false_2 by exact Hvin. cbn [negb].
  destruct v; reflexivity.
Qed.

(** X15: a vehicle written by [to_dict] and read back by [from_dict] is the
    same vehicle, field by field, whatever the constructor draws on the way,
    as long as its VIN is not the empty string. *)
Theorem dict_round_trip (r : Draws) (v : Vehicle) :
  vin v <> "" -> from_dict r (to_dict v) = Built v.
Proof. apply from_dict_to_dict. Qed.

Lemma dict_round_trip_witness :
  from_dict (mk_draws "MOCK10000" 1000 2000 10000)
            (to_dict (sample 50000 47000 46000 35000))
  = Built (sample 50000 47000 46000 35000).
Proof. apply dict_round_trip. discriminate. Defined.

(** With an empty VIN the round trip does not hold: the constructor takes the
    empty string for a missing VIN and draws a mock one. *)
Example empty_vin_replaced :
  from_dict (mk_draws "MOCK10000" 1000 2000 10000)
            (to_dict (Vehicle_init "Kia" "Rio" 2015 100 "" 1 2 3))
  = Built (Vehicle_init "Kia" "Rio" 2015 100 "MOCK10000" 1 2 3).
Proof. vm_compute. reflexivity. Qed.

(** X16: [from_dict] raises [KeyError] exactly when one of 'make', 'model',
    'year', 'mileage' is missing, and names the first missing one in that
    order; none of the other six keys is required. *)
Theorem from_dict_key_error (r : Draws) (data : gmap string pyval) :
  (forall key, from_dict r data = KeyError key ->
     data !! key = None /\
     ((key = "make") \/
      (key = "model" /\ is_Some (data !! "make")) \/
      (key = "year" /\ is_Some (data !! "make") /\ is_Some (data !! "model")) \/
      (key = "mileage" /\ is_Some (data !! "make") /\ is_Some (data !! "model")
         /\ is_Some (data !! "year")))) /\
  (data !! "make" = None \/ data !! "model" = None \/
   data !! "year" = None \/ data !! "mileage" = None ->
   exists key, from_dict r data = KeyError key).
Proof.
  unfold from_dict, get_int. split.
  - intros key.
    destruct (data !! "make") as [[ | mk | | | ] | ] eqn:Hmake;
      destruct (data !! "model") as [[ | md | | | ] | ] eqn:Hmodel;
      destruct (data !! "year") as [[ | | y | | ] | ] eqn:Hyear;
      destruct (data !! "mileage") as [[ | | m | | ] | ] eqn:Hmileage;
      try discriminate; try (intros [= <-]; split; [assumption | ]; eauto 10).
    repeat match goal with
           | |- context [match ?x with _ => _ end] => destruct x; try discriminate
           end.
  - destruct (data !! "make") as [[ | mk | | | ] | ];
      destruct (data !! "model") as [[ | md | | | ] | ];
      destruct (data !! "year") as [[ | | y | | ] | ];
      destruct (data !! "mileage") as [[ | | m | | ] | ];
      intros [Hn | [Hn | [Hn | Hn]]]; try discriminate Hn; eauto.
Qed.

Lemma from_dict_key_error_witness :
  exists key, from_dict (mk_draws "MOCK10000" 1000 2000 10000)
                        (delete "year" (to_dict (sample 50000 47000 46000 35000)))
              = KeyError key.
Proof.
  apply (proj2 (from_dict_key_error (mk_draws "MOCK10000" 1000 2000 10000)
                  (delete "year" (to_dict (sample 50000 47000 46000 35000))))).
  right. right. left. vm_compute. reflexivity.
Defined.

(** X17: a dictionary with nothing but the four required keys gives a
    vehicle with the mock VIN, a battery at 12.6 V, an empty history and
    last-service readings 3000, 4000 and 15000 miles behind the odometer; the
    backlogs the constructor drew are overwritten, and the evaluator lists
    nothing for it. *)
Theorem from_dict_defaults (r : Draws) (make_ model_ : string) (year_ mileage_ : Z) :
  let data : gmap string pyval :=
    list_to_map [ ("make", PStr make_); ("model", PStr model_);
                  ("year", PInt year_); ("mileage", PInt mileage_) ] in
  let v := mk_vehicle make_ model_ year_ mileage_ (draw_vin r) 12.6%float []
                      (mileage_ - 3000) (mileage_ - 4000) (mileage_ - 15000) in
  from_dict r data = Built v /\ due_items v = [] /\ readings_behind v.
Proof.
  cbv zeta. split; [ | split].
  - unfold from_dict, get_int. cbn [list_to_map foldr]. by simplify_map_eq.
  - open_evaluator. cbn. split_bands; try lia. reflexivity.
  - unfold readings_behind. cbn. lia.
Qed.

Lemma from_dicts_written (rng : nat -> Draws) (vs : list Vehicle)
      (tail : list (gmap string pyval)) (k : nat) :
  Forall (fun v => vin v <> "") vs ->
  from_dicts rng k ((to_dict <$> vs) ++ tail)
  = match from_dicts rng (k + length vs) tail with
    | Some (Some ws) => Some (Some (vs ++ ws))
    | other => other
    end.
Proof.
  intros Hvins. revert k. induction Hvins as [ | v vs Hv Hvs IH]; intros k.
  - cbn. rewrite Nat.add_0_r. destruct (from_dicts rng k tail) as [[ws | ] | ]; reflexivity.
  - cbn [fmap list_fmap app from_dicts]. rewrite (from_dict_to_dict _ v Hv).
    change (list_fmap Vehicle (gmap string pyval) to_dict vs) with (to_dict <$> vs).
    rewrite IH. cbn [length]. replace (S k + length vs)%nat with (k + S (length vs))%nat by lia.
    destruct (from_dicts rng (k + S (length vs)) tail) as [[ws | ] | ]; reflexivity.
Qed.

(** X18: loading what [save_vehicles] wrote gives back the same vehicles, in
    the same order, without a warning, provided no VIN is the empty string. *)
Theorem load_after_save (rng : nat -> Draws) (vs : list Vehicle) :
  Forall (fun v => vin v <> "") vs ->
  load_vehicles rng (dump vs) = Some (vs, false).
Proof.
  intros Hvins. unfold load_vehicles, dump.
  rewrite <- (app_nil_r (to_dict <$> vs)).
  rewrite (from_dicts_written rng vs [] 0 Hvins). cbn. rewrite app_nil_r. reflexivity.
Qed.

Lemma load_after_save_witness :
  load_vehicles (fun _ => mk_draws "MOCK10000" 1000 2000 10000)
                (dump [sample 50000 47000 46000 35000; sample 900 0 0 0])
  = Some ([sample 50000 47000 46000 35000; sample 900 0 0 0], false).
Proof. apply load_after_save. repeat constructor; discriminate. Defined.

(** Records that load in front of others: the comprehension goes on with
    the rest, and the draws go on where they stopped. *)
Lemma from_dicts_app (rng : nat -> Draws) (good tail : list (gmap string pyval))
      (vs : list Vehicle) (k : nat) :
  from_dicts rng k good = Some (Some vs) ->
  from_dicts rng k (good ++ tail)
  = match from_dicts rng (k + length good) tail with
    | Some (Some ws) => Some (Some (vs ++ ws))
    | other => other
    end.
Proof.
  revert k vs. induction good as [ | d good IH]; intros k vs Hgood.
  - cbn in Hgood. injection Hgood as <-. cbn. rewrite Nat.add_0_r.
    destruct (from_dicts rng k tail) as [[ws | ] | ]; reflexivity.
  - cbn [from_dicts] in Hgood. cbn [app from_dicts length].
    destruct (from_dict (rng k) d) as [v | key | ]; try discriminate Hgood.
    destruct (from_dicts rng (S k) good) as [[vs' | ] | ] eqn:Hrest;
      try discriminate Hgood.
    injection Hgood as <-. rewrite (IH (S k) vs' Hrest).
    replace (S k + length good)%nat with (k + S (length good))%nat by lia.
    destruct (from_dicts rng (k + S (length good)) tail) as [[ws | ] | ]; reflexivity.
Qed.

(** X19: one record without a required key loses the whole file: when the
    records before it load, whatever they are, and it raises [KeyError],
    [load_vehicles] prints the warning and leaves the list empty, whatever
    follows. *)
Theorem load_all_or_nothing (rng : nat -> Draws) (good : list (gmap string pyval))
        (vs : list Vehicle) (bad : gmap string pyval)
        (rest : list (gmap string pyval)) (key : string) :
  from_dicts rng 0 good = Some (Some vs) ->
  from_dict (rng (length good)) bad = KeyError key ->
  load_vehicles rng (Json (good ++ bad :: rest)) = Some ([], true).
Proof.
  intros Hgood Hbad. unfold load_vehicles.
  rewrite (from_dicts_app rng good (bad :: rest) vs 0 Hgood).
  cbn [from_dicts Nat.add]. rewrite Hbad. reflexivity.
Qed.

Lemma load_all_or_nothing_witness :
  let four_keys : gmap string pyval :=
    list_to_map [ ("make", PStr "Kia"); ("model", PStr "Rio");
                  ("year", PInt 2015); ("mileage", PInt 100) ] in
  load_vehicles (fun _ => mk_draws "MOCK10000" 1000 2000 10000)
                (Json ([four_keys; to_dict (sample 50000 47000 46000 35000)]
                       ++ delete "make" (to_dict (sample 900 0 0 0))
                       :: [to_dict (sample 900 0 0 0)]))
  = Some ([], true).
Proof.
  intros four_keys.
  refine (load_all_or_nothing _ [four_keys; to_dict (sample 50000 47000 46000 35000)]
            [mk_vehicle "Kia" "Rio" 2015 100 "MOCK10000" 12.6%float []
                        (100 - 3000) (100 - 4000) (100 - 15000);
             sample 50000 47000 46000 35000]
            (delete "make" (to_dict (sample 900 0 0 0)))
            [to_dict (sample 900 0 0 0)] "make" _ _).
  - vm_compute. reflexivity.
  - vm_compute. reflexivity.
Defined.

(** ** Adding a vehicle *)

Section Adding.

Context `{!Builtins}.
Variable strip : string -> string.
Variable year_of : datetime -> Z.

(** The year prompt reads the clock once for every line that parses; the
    year it returns passed the test against one of those readings. *)
Lemma ask_year_spec (lines : list string) (w : World) :
  (vehicles (ask_year year_of lines w).2 = vehicles w /\
   standing (ask_year year_of lines w).2 = standing w) /\
  forall year w', ask_year year_of lines w = (Done year, w') ->
    exists k : nat,
      1900 <= year <= year_of (clock w (clock_reads w + k)%nat) + 1.
Proof.
  revert w. induction lines as [ | l rest IH]; intros w.
  { split; [split; reflexivity | intros ? ? Hx; cbv in Hx; discriminate Hx]. }
  set (P := fun res : outcome Z * World =>
              (vehicles res.2 = vehicles w /\ standing res.2 = standing w) /\
              forall year w', res = (Done year, w') ->
                exists k : nat,
                  1900 <= year <= year_of (clock w (clock_reads w + k)%nat) + 1).
  change (P (ask_year year_of (l :: rest) w)).
  cbn [ask_year]. unfold bind at 1, input at 1.
  destruct (stdin w) as [ | typed later].
  { split; [split; reflexivity | intros ? ? Hx; discriminate Hx]. }
  destruct (int_of typed) as [year | ].
  - unfold bind at 1, get_now at 1. unfold now at 1.
    cbn [clock clock_reads set_stdin].
    destruct ((1900 <=? year) && (year <=? year_of (clock w (clock_reads w)) + 1))
      eqn:Hrange.
    + split; [split; reflexivity | ]. intros y w' [= <- <-].
      apply andb_true_iff in Hrange as [H1 H2]. exists 0%nat.
      rewrite Nat.add_0_r. lia.
    + unfold bind at 1, print at 1.
      match goal with
      | |- context [ask_year year_of rest ?w1] =>
          destruct (IH w1) as [[Hv Hs] Hyear]
      end.
      split; [split; [exact Hv | exact Hs] | ].
      intros y w' Hrun. destruct (Hyear y w' Hrun) as (k & Hk).
      exists (S k). cbn [clock clock_reads set_stdin set_stdout set_clock_reads] in Hk.
      replace (clock_reads w + S k)%nat with (S (clock_reads w) + k)%nat by lia.
      exact Hk.
  - unfold bind at 1, print at 1.
    match goal with
    | |- context [ask_year year_of rest ?w1] =>
        destruct (IH w1) as [[Hv Hs] Hyear]
    end.
    split; [split; [exact Hv | exact Hs] | ].
    intros y w' Hrun. destruct (Hyear y w' Hrun) as (k & Hk).
    exists k. exact Hk.
Qed.

Lemma ask_mileage_spec (lines : list string) (w : World) :
  beyond_io (ask_mileage lines w).2 = beyond_io w /\
  forall m w', ask_mileage lines w = (Done m, w') -> 0 <= m.
Proof.
  revert w. induction lines as [ | l rest IH]; intros w.
  { split; [reflexivity | intros ? ? Hx; cbv in Hx; discriminate Hx]. }
  set (P := fun res : outcome Z * World =>
              beyond_io res.2 = beyond_io w /\
              forall m w', res = (Done m, w') -> 0 <= m).
  change (P (ask_mileage (l :: rest) w)).
  cbn [ask_mileage]. unfold bind at 1, input at 1.
  destruct (stdin w) as [ | typed later].
  { split; [reflexivity | intros ? ? Hx; discriminate Hx]. }
  destruct (int_of typed) as [m | ].
  - destruct (Z.leb_spec 0 m) as [Hle | Hlt].
    + split; [reflexivity | ]. intros y w' [= <- <-]. exact Hle.
    + unfold bind at 1, print at 1.
      match goal with
      | |- context [ask_mileage rest ?w1] => exact (IH w1)
      end.
  - unfold bind at 1, print at 1.
    match goal with
    | |- context [ask_mileage rest ?w1] => exact (IH w1)
    end.
Qed.

Lemma beyond_io_fields (w w' : World) :
  beyond_io w' = beyond_io w ->
  vehicles w' = vehicles w /\ standing w' = standing w.
Proof.
  intros Heq. split; [exact (f_equal fst Heq) | ].
  apply surroundings_standing. exact (f_equal snd Heq).
Qed.

(** Saving and waiting for Enter, the way [add_vehicle] ends. *)
Lemma save_and_wait (w0 w : World) :
  standing w = standing w0 ->
  vehicles ((run save_vehicles; run input; ret tt) w).2 = vehicles w /\
  written w0 ((run save_vehicles; run input; ret tt) w).2.
Proof.
  intros Hst. apply standing_fields in Hst as (Hs & Ht & Hok & Hn & _).
  unfold written. rewrite <- Hok, <- Hn, <- Hs, <- Ht.
  unfold bind, save_vehicles, input, ret.
  destruct (write_ok w (writes w)); cbn; destruct (stdin w); cbn;
    repeat split; try reflexivity; set_solver.
Qed.

Lemma add_vehicle_cases (r : Draws) (w : World) :
  untouched w (add_vehicle strip year_of r w).2 \/
  (exists make_ model_ year_ mileage_ (k : nat),
     1900 <= year_ <= year_of (clock w (clock_reads w + k)%nat) + 1 /\
     0 <= mileage_ /\
     vehicles (add_vehicle strip year_of r w).2
     = vehicles w ++ [Vehicle_init make_ model_ year_ mileage_ (draw_vin r)
                                   (draw_oil r) (draw_tire r) (draw_air r)] /\
     written w (add_vehicle strip year_of r w).2).
Proof.
  set (P := fun w' : World =>
    untouched w w' \/
    (exists make_ model_ year_ mileage_ (k : nat),
       1900 <= year_ <= year_of (clock w (clock_reads w + k)%nat) + 1 /\
       0 <= mileage_ /\
       vehicles w'
       = vehicles w ++ [Vehicle_init make_ model_ year_ mileage_ (draw_vin r)
                                     (draw_oil r) (draw_tire r) (draw_air r)] /\
       written w w')).
  change (P (add_vehicle strip year_of r w).2).
  unfold add_vehicle. unfold bind at 1, input at 1.
  destruct (stdin w) as [ | make_line rest]; [left; repeat split; reflexivity | ].
  unfold bind at 1, input at 1. cbn [stdin set_stdin].
  destruct rest as [ | model_line rest]; [left; repeat split; reflexivity | ].
  unfold bind at 1.
  match goal with
  | |- context [ask_year year_of (stdin ?w2) ?w2] =>
      destruct (ask_year_spec (stdin w2) w2) as [[Hv3 Hs3] Hyear];
      destruct (ask_year year_of (stdin w2) w2) as [[year_ | e] w3]
  end; cbn [snd] in Hv3, Hs3; [ | left; apply untouched_by; assumption].
  destruct (Hyear year_ w3 eq_refl) as (k & Hk).
  cbn [clock clock_reads set_stdin] in Hk.
  unfold bind at 1.
  destruct (ask_mileage_spec (stdin w3) w3) as [Hio Hmileage].
  destruct (ask_mileage (stdin w3) w3) as [[mileage_ | e] w4];
    cbn [snd] in Hio; apply beyond_io_fields in Hio as (Hv4 & Hs4).
  2: { left. cbn [snd].
       apply untouched_by; [rewrite Hv4; exact Hv3 | rewrite Hs4; exact Hs3]. }
  specialize (Hmileage mileage_ w4 eq_refl).
  right. exists (strip make_line), (strip model_line), year_, mileage_, k.
  split; [exact Hk | split; [exact Hmileage | ]].
  unfold bind at 1, vehicles_append at 1.
  match goal with
  | |- context [bind save_vehicles _ ?w5] =>
      destruct (save_and_wait w w5) as [Hv5 Hw5];
      [transitivity (standing w4); [reflexivity | rewrite Hs4; exact Hs3] | ]
  end.
  split; [ | exact Hw5]. rewrite Hv5. cbn [vehicles set_vehicles].
  rewrite Hv4, Hv3. reflexivity.
Qed.


(** X21: when the next four lines are a make, a model, a year that parses
    and is in range on the clock's next reading, and a mileage that parses
    and is not negative, [add_vehicle] appends the vehicle built from them
    (make and model stripped) and writes the file once, even if the input
    ends before the closing Enter: when the write goes through the file
    holds the new list, when it fails "Error saving vehicles" is printed and
    the file is as it was ([open] failed) or torn ([json.dump] failed). *)
Theorem add_vehicle_first_try (r : Draws) (w : World)
        (make_line model_line year_line mileage_line : string)
        (rest : list string) (year_ mileage_ : Z) :
  stdin w = make_line :: model_line :: year_line :: mileage_line :: rest ->
  int_of year_line = Some year_ ->
  1900 <= year_ <= year_of (now w) + 1 ->
  int_of mileage_line = Some mileage_ ->
  0 <= mileage_ ->
  let v := Vehicle_init (strip make_line) (strip model_line) year_ mileage_
                        (draw_vin r) (draw_oil r) (draw_tire r) (draw_air r) in
  vehicles (add_vehicle strip year_of r w).2 = vehicles w ++ [v] /\
  written w (add_vehicle strip year_of r w).2.
Proof.
  intros Hin Hy Hyr Hm Hmr v.
  set (P := fun w' : World => vehicles w' = vehicles w ++ [v] /\ written w w').
  change (P (add_vehicle strip year_of r w).2).
  unfold add_vehicle. unfold bind at 1, input at 1. rewrite Hin.
  unfold bind at 1, input at 1. cbn [stdin set_stdin].
  unfold bind at 1. cbn [stdin set_stdin ask_year].
  unfold bind at 1, input at 1. cbn [stdin set_stdin]. rewrite Hy.
  unfold bind at 1, get_now at 1. unfold now at 1.
  cbn [clock clock_reads set_stdin]. fold (now w).
  replace ((1900 <=? year_) && (year_ <=? year_of (now w) + 1)) with true
    by (symmetry; apply andb_true_iff; split; apply Z.leb_le; lia).
  unfold ret at 1. unfold bind at 1. cbn [stdin set_stdin set_clock_reads ask_mileage].
  unfold bind at 1, input at 1. cbn [stdin set_stdin set_clock_reads]. rewrite Hm.
  replace (0 <=? mileage_) with true by (symmetry; apply Z.leb_le; lia).
  unfold ret at 1. unfold bind at 1, vehicles_append at 1.
  match goal with
  | |- context [bind save_vehicles _ ?w5] =>
      destruct (save_and_wait w w5) as [Hv5 Hw5]; [reflexivity | ]
  end.
  split; [rewrite Hv5; reflexivity | exact Hw5].
Qed.

End Adding.


(** When the write breaks off the new vehicle is in the list, the file is
    torn, and the failure is reported. *)
Example add_vehicle_unsaved :
  let w := (add_vehicle (fun s => s) (fun _ => 2026)
              (mk_draws "MOCK10000" 3000 4000 15000)
              (with_writes DumpFailed
                 (garage ["Honda"; "Civic"; "2019"; "82000"; ""]))).2 in
  mileage <$> vehicles w = [50000; 82000] /\
  saved w = [] /\ file_torn w = true /\
  stdout w = [SaveFailed].
Proof. vm_compute. repeat split; reflexivity. Qed.

Lemma add_vehicle_first_try_witness :
  mileage <$> vehicles (add_vehicle (fun s => s) (fun _ => 2026)
                          (mk_draws "MOCK10000" 3000 4000 15000)
                          (garage ["Honda"; "Civic"; "2019"; "82000"])).2
  = [50000; 82000].
Proof.
  pose proof (add_vehicle_first_try (fun s => s) (fun _ => 2026)
                (mk_draws "MOCK10000" 3000 4000 15000)
                (garage ["Honda"; "Civic"; "2019"; "82000"])
                "Honda" "Civic" "2019" "82000" [] 2019 82000
                eq_refl eq_refl ltac:(cbn; lia) eq_refl ltac:(lia)) as [Hv _].
  rewrite Hv. reflexivity.
Defined.

(** ** Reports *)

Section Reports.

Context `{!Builtins}.

Lemma keeps_check_maintenance : keeps_vehicles check_maintenance.
Proof.
  unfold check_maintenance.
  apply keeps_bind; [apply keeps_select_vehicle | intros [i | ]]; [ | auto with keeps].
  apply keeps_bind; [auto with keeps | intros due].
  apply keeps_bind; [destruct due; [auto with keeps | intros w; reflexivity] | intros _].
  apply keeps_bind; [apply keeps_on_vehicle; reflexivity | intros b].
  repeat (apply keeps_bind; [auto with keeps | intros ?]); auto with keeps.
Qed.

Lemma stays_check_maintenance : preserves surroundings check_maintenance.
Proof.
  unfold check_maintenance.
  apply preserves_bind; [apply stays_select_vehicle | intros [i | ]]; [ | auto with stays].
  apply preserves_bind; [auto with stays | intros due].
  apply preserves_bind; [destruct due; [auto with stays | intros w; reflexivity] | intros _].
  repeat (apply preserves_bind; [auto with stays | intros ?]); auto with stays.
Qed.

Lemma keeps_view_history : keeps_vehicles view_history.
Proof.
  unfold view_history.
  apply keeps_bind; [apply keeps_select_vehicle | intros [i | ]]; [ | auto with keeps].
  apply keeps_bind; [apply keeps_on_vehicle; reflexivity | intros history].
  apply keeps_bind; [destruct history; auto with keeps | intros _].
  repeat (apply keeps_bind; [auto with keeps | intros ?]); auto with keeps.
Qed.

Lemma stays_view_history : preserves surroundings view_history.
Proof.
  unfold view_history.
  apply preserves_bind; [apply stays_select_vehicle | intros [i | ]]; [ | auto with stays].
  apply preserves_bind; [auto with stays | intros history].
  apply preserves_bind; [destruct history; auto with stays | intros _].
  repeat (apply preserves_bind; [auto with stays | intros ?]); auto with stays.
Qed.

(** X14: [check_maintenance] and [view_history] only read and print: the
    vehicles, the file and the collaborators are as before, whatever is
    typed. The report of [check_maintenance] for the selected vehicle is the
    evaluator's items, one line each in the evaluator's order (or "All
    maintenance up to date!" when there are none), then the voltage and its
    label; [view_history] says "No maintenance history recorded." for a
    vehicle without history. *)
Theorem reports_read_only (w : World) :
  beyond_io (check_maintenance w).2 = beyond_io w /\
  beyond_io (view_history w).2 = beyond_io w /\
  forall (i : nat) (w1 : World) (v : Vehicle),
    select_vehicle w = (Done (Some i), w1) ->
    vehicles w !! i = Some v ->
    stdout (check_maintenance w).2
    = stdout w1
      ++ match due_items v with
         | [] => [Say "All maintenance up to date!"]
         | items => DueLine <$> items
         end
      ++ [BatteryStatus (battery_voltage v); Say (battery_label (battery_voltage v))] /\
    (maintenance_history v = [] ->
     stdout (view_history w).2 = stdout w1 ++ [Say "No maintenance history recorded."]).
Proof.
  split; [ | split].
  - unfold beyond_io.
    rewrite (keeps_check_maintenance w), (stays_check_maintenance w). reflexivity.
  - unfold beyond_io. rewrite (keeps_view_history w), (stays_view_history w). reflexivity.
  - intros i w1 v Hsel Hv.
    assert (Hv1 : vehicles w1 !! i = Some v).
    { pose proof (keeps_select_vehicle w) as Hk. rewrite Hsel in Hk. cbn [snd] in Hk.
      rewrite Hk. exact Hv. }
    split.
    + unfold check_maintenance. unfold bind at 1. rewrite Hsel.
      unfold bind at 1.
      rewrite (on_vehicle_read i check_maintenance_due w1 v Hv1 eq_refl).
      change (check_maintenance_due v).1 with (due_items v).
      destruct (due_items v) as [ | it items].
      * unfold bind at 1, print at 1. unfold bind at 1.
        rewrite (on_vehicle_getattr i battery_voltage _ v) by exact Hv1.
        unfold bind, print, input, ret. cbn.
        destruct (stdin w1); cbn; rewrite <- ?app_assoc; reflexivity.
      * unfold bind at 1. unfold bind at 1.
        rewrite (on_vehicle_getattr i battery_voltage _ v) by exact Hv1.
        unfold bind, print, input, ret. cbn.
        destruct (stdin w1); cbn; rewrite <- ?app_assoc; reflexivity.
    + intros Hempty. unfold view_history. unfold bind at 1. rewrite Hsel.
      unfold bind at 1.
      rewrite (on_vehicle_getattr i maintenance_history _ v) by exact Hv1.
      rewrite Hempty. unfold bind, print, input, ret. cbn.
      destruct (stdin w1); reflexivity.
Qed.

End Reports.

Lemma reports_read_only_witness :
  stdout (check_maintenance (garage ["1"; ""])).2
  = [DueLine ("Air Filter", 500, "UPCOMING"); BatteryStatus 12.6; Say "(Good)"].
Proof.
  destruct (reports_read_only (garage ["1"; ""])) as (_ & _ & Hreport).
  assert (Hsel : select_vehicle (garage ["1"; ""])
                 = (Done (Some 0%nat), (select_vehicle (garage ["1"; ""])).2))
    by (vm_compute; reflexivity).
  destruct (Hreport 0%nat _ (sample 50000 47000 46000 20500) Hsel eq_refl) as [Hout _].
  rewrite Hout. reflexivity.
Defined.

(** ** Sessions *)









Section Sessions.

Context `{!Builtins}.
Variable strip : string -> string.
Variable year_of : datetime -> Z.












(** *** No exception but [EOFError] *)
































(** *** Whole sessions *)

Lemma kept_refl (v : Vehicle) : kept v v.
Proof. unfold kept. repeat split; reflexivity. Qed.

Lemma kept_trans (v1 v2 v3 : Vehicle) : kept v1 v2 -> kept v2 v3 -> kept v1 v3.
Proof.
  unfold kept. intros (H1 & H2 & H3 & H4 & H5 & H6 & H7 & H8)
                      (G1 & G2 & G3 & G4 & G5 & G6 & G7 & G8).
  repeat split; try congruence. etransitivity; eassumption.
Qed.

Lemma nothing_lost_refl (vs : list Vehicle) : nothing_lost vs vs.
Proof. intros k v Hk. exists v. split; [exact Hk | apply kept_refl]. Qed.

Lemma nothing_lost_trans (vs1 vs2 vs3 : list Vehicle) :
  nothing_lost vs1 vs2 -> nothing_lost vs2 vs3 -> nothing_lost vs1 vs3.
Proof.
  intros H12 H23 k v Hk. destruct (H12 k v Hk) as (v2 & Hk2 & Hkept2).
  destruct (H23 k v2 Hk2) as (v3 & Hk3 & Hkept3).
  exists v3. split; [exact Hk3 | eapply kept_trans; eassumption].
Qed.

Lemma nothing_lost_same (vs vs' : list Vehicle) : vs' = vs -> nothing_lost vs vs'.
Proof. intros ->. apply nothing_lost_refl. Qed.

Lemma nothing_lost_insert (vs : list Vehicle) (i : nat) (v v' : Vehicle) :
  vs !! i = Some v -> kept v v' -> nothing_lost vs (<[i := v']> vs).
Proof.
  intros Hi Hkept k u Hk. destruct (decide (k = i)) as [-> | Hne].
  - rewrite Hk in Hi. injection Hi as ->. exists v'.
    split; [apply list_lookup_insert_eq; eapply lookup_lt_Some; exact Hk | exact Hkept].
  - exists u. rewrite list_lookup_insert_ne by congruence.
    split; [exact Hk | apply kept_refl].
Qed.

Lemma nothing_lost_update_mileage (w : World) :
  nothing_lost (vehicles w) (vehicles (update_mileage w).2).
Proof.
  destruct (update_mileage_cases w)
    as [[Hsame _] | [(i & v & m & Hi & _ & Hv & _) | (i & v & Hi & Hv & _)]].
  - apply nothing_lost_same. exact Hsame.
  - rewrite Hv. apply (nothing_lost_insert _ i v); [exact Hi | ].
    unfold kept. cbn. repeat split; reflexivity.
  - rewrite Hv. apply (nothing_lost_insert _ i v); [exact Hi | ].
    unfold kept. cbn. repeat split; reflexivity.
Qed.

Lemma nothing_lost_schedule_service (w : World) :
  nothing_lost (vehicles w) (vehicles (schedule_service w).2).
Proof.
  destruct (schedule_service_cases w)
    as [[Hsame _] | (i & v & service & date & Hi & Hv & _)].
  - apply nothing_lost_same. exact Hsame.
  - rewrite Hv. apply (nothing_lost_insert _ i v); [exact Hi | ].
    unfold kept. cbn. repeat split; try reflexivity. apply prefix_app_r. reflexivity.
Qed.

Lemma nothing_lost_add_vehicle (r : Draws) (w : World) :
  nothing_lost (vehicles w) (vehicles (add_vehicle strip year_of r w).2).
Proof.
  destruct (add_vehicle_cases strip year_of r w)
    as [[Hsame _] | (mk & md & y & m & n & _ & _ & Hv & _)].
  - apply nothing_lost_same. exact Hsame.
  - rewrite Hv. intros k v Hk. exists v.
    split; [apply lookup_app_l_Some; exact Hk | apply kept_refl].
Qed.

Lemma main_menu_frame (rng : nat -> Draws) (fuel k : nat) (w : World) :
  nothing_lost (vehicles w) (vehicles (main_menu strip year_of rng fuel k w).2).
Proof.
  revert k w. induction fuel as [ | fuel IH]; intros k w; [apply nothing_lost_refl | ].
  cbn [main_menu]. unfold input at 1.
  destruct (stdin w) as [ | line rest]; [apply nothing_lost_refl | ].
  assert (Hnext : forall k' (op : App unit),
            nothing_lost (vehicles w) (vehicles (op (set_stdin rest w)).2) ->
            nothing_lost (vehicles w)
              (vehicles (match op (set_stdin rest w) with
                         | (Done _, w2) => main_menu strip year_of rng fuel k' w2
                         | (Raised e, w2) => (Uncaught e, w2)
                         end).2)).
  { intros k' op Hop. destruct (op (set_stdin rest w)) as [[[] | e] w2]; cbn [snd] in *.
    - eapply nothing_lost_trans; [exact Hop | apply IH].
    - exact Hop. }
  repeat case_decide.
  - apply Hnext. apply (nothing_lost_add_vehicle (rng k) (set_stdin rest w)).
  - apply Hnext. apply (nothing_lost_update_mileage (set_stdin rest w)).
  - apply Hnext. apply nothing_lost_same.
    exact (keeps_check_maintenance (set_stdin rest w)).
  - apply Hnext. apply (nothing_lost_schedule_service (set_stdin rest w)).
  - apply Hnext. apply nothing_lost_same.
    exact (keeps_view_history (set_stdin rest w)).
  - apply nothing_lost_refl.
  - apply Hnext. apply nothing_lost_same.
    match goal with
    | |- vehicles (?op ?w1).2 = _ =>
        assert (Hk : keeps_vehicles op)
          by (repeat (apply keeps_bind; [auto with keeps | intros ?]); auto with keeps);
        exact (Hk w1)
    end.
Qed.

(** X23: over a whole session, whatever is typed, no vehicle is removed or
    moved, no history record is removed or changed, and no vehicle's make,
    model, year, VIN or last-service reading is ever altered: every vehicle
    present at the start is at the same position at the end with the same
    identity and readings and a history that extends its old one. In
    particular no menu operation records that a service was done. *)
Theorem session_loses_nothing (rng : nat -> Draws) (fuel k : nat) (w : World)
        (i : nat) (v : Vehicle) :
  vehicles w !! i = Some v ->
  exists v' : Vehicle,
    vehicles (main_menu strip year_of rng fuel k w).2 !! i = Some v' /\
    make v' = make v /\ model v' = model v /\ year v' = year v /\ vin v' = vin v /\
    last_oil_change v' = last_oil_change v /\
    last_tire_rotation v' = last_tire_rotation v /\
    last_air_filter v' = last_air_filter v /\
    maintenance_history v `prefix_of` maintenance_history v'.
Proof. intros Hi. exact (main_menu_frame rng fuel k w i v Hi). Qed.


End Sessions.


Lemma session_loses_nothing_witness :
  exists v',
    vehicles (main_menu (fun s => s) (fun _ => 2026)
                (fun _ => mk_draws "MOCK10000" 3000 4000 15000) 20 0
                (garage ["4"; "1"; "1"; "2"; "n"; ""; "2"; "1"; "y"; "y"; ""; "6"])).2
      !! 0%nat = Some v' /\
    last_air_filter v' = 20500.
Proof.
  destruct (session_loses_nothing (fun s => s) (fun _ => 2026)
              (fun _ => mk_draws "MOCK10000" 3000 4000 15000) 20 0
              (garage ["4"; "1"; "1"; "2"; "n"; ""; "2"; "1"; "y"; "y"; ""; "6"])
              0 (sample 50000 47000 46000 20500) eq_refl)
    as (v' & Hv' & _ & _ & _ & _ & _ & _ & Hair & _).
  exists v'. split; [exact Hv' | exact Hair].
Defined.


(** A session: schedule the air filter, take an OBD2 reading, leave. *)
Example session_run :
  let r := main_menu (fun s => s) (fun _ => 2026)
             (fun _ => mk_draws "MOCK10000" 3000 4000 15000) 20 0
             (garage ["4"; "1"; "1"; "2"; "n"; ""; "2"; "1"; "y"; "y"; ""; "6"]) in
  r.1 = Exit 0 /\
  mileage <$> vehicles r.2 = [1000] /\
  (length <$> (maintenance_history <$> vehicles r.2)) = [1%nat].
Proof. vm_compute. repeat split; reflexivity. Qed.

(** ** The battery, both ways *)






(** NaN is labelled Poor, and [update_mileage] does not warn about it. *)
Example nan_is_poor_without_warning :
  battery_label PrimFloat.nan = "(Poor - Consider replacement)" /\
  PrimFloat.ltb PrimFloat.nan 12.0 = false.
Proof. split; reflexivity. Qed.

(** ** Scheduling with nothing due *)

Section NothingDue.

Context `{!Builtins}.

(** X26: when the evaluator lists nothing for the selected vehicle,
    [schedule_service] says "No maintenance currently due!" and stops:
    nothing is written and nothing is saved. *)
Theorem schedule_service_nothing_due (w w1 : World) (i : nat) (v : Vehicle) :
  select_vehicle w = (Done (Some i), w1) ->
  vehicles w !! i = Some v ->
  due_items v = [] ->
  vehicles (schedule_service w).2 = vehicles w /\
  saved (schedule_service w).2 = saved w /\
  stdout (schedule_service w).2 = stdout w1 ++ [Say "No maintenance currently due!"].
Proof.
  intros Hsel Hv Hdue.
  pose proof (keeps_select_vehicle w) as Hkv. rewrite Hsel in Hkv. cbn [snd] in Hkv.
  pose proof (stays_select_vehicle w) as Hks. rewrite Hsel in Hks. cbn [snd] in Hks.
  apply surroundings_saved in Hks as (Hsaved & _).
  assert (Hv1 : vehicles w1 !! i = Some v) by (rewrite Hkv; exact Hv).
  set (P := fun w' : World =>
              vehicles w' = vehicles w /\ saved w' = saved w /\
              stdout w' = stdout w1 ++ [Say "No maintenance currently due!"]).
  change (P (schedule_service w).2).
  unfold schedule_service, select_service_and_date.
  unfold bind at 1. unfold bind at 1. rewrite Hsel.
  unfold bind at 1.
  rewrite (on_vehicle_read i check_maintenance_due w1 v Hv1 eq_refl).
  change (check_maintenance_due v).1 with (due_items v). rewrite Hdue.
  unfold bind, print, input, ret. cbn.
  destruct (stdin w1) as [ | l rest]; cbn; repeat split; assumption.
Qed.

End NothingDue.

Lemma schedule_service_nothing_due_witness :
  stdout (schedule_service (new_car_garage ["1"; ""])).2
  = [Say "No maintenance currently due!"].
Proof.
  assert (Hsel : select_vehicle (new_car_garage ["1"; ""])
                 = (Done (Some 0%nat), (select_vehicle (new_car_garage ["1"; ""])).2))
    by (vm_compute; reflexivity).
  destruct (schedule_service_nothing_due (new_car_garage ["1"; ""]) _ 0
              (sample 50000 47000 46000 35000) Hsel eq_refl)
    as (_ & _ & Hout).
  - vm_compute. reflexivity.
  - rewrite Hout. reflexivity.
Defined.
